(** * pyperf/_process_time.py: the process benchmarking harness

    A shallow embedding of [pyperf/_process_time.py] and the properties of
    its benchmark loop, profile merger, hook life cycle and result emitter.

    The script is effectful throughout: it reads the wall clock, asks the
    kernel for resource usage, spawns children, touches the file system,
    edits [sys.argv] in place and writes to stdout and stderr.  The embedding
    threads an explicit [world] through a small state-and-exception monad
    [M]; what the host answers (clock values, [ru_maxrss] readings, what a
    child does) is supplied by the [Host] interface, so every run of the
    model is a computation that can be evaluated. *)

From Stdlib Require Import ZArith Ascii String List Lia.
From stdpp Require Import base decidable option list gmap strings pretty.

Local Open Scope Z_scope.

(** ** Python values the script handles *)

Definition newline : ascii := ascii_of_nat 10.

(** Whether a text contains a line break. *)
Fixpoint has_newline (s : string) : bool :=
  match s with
  | EmptyString => false
  | String c s' => if decide (c = newline) then true else has_newline s'
  end.

(** [time.perf_counter()] returns a binary64 float.  The harness only
    subtracts two readings and prints the difference, so the float type is
    kept abstract: subtraction and [repr] are the interface, and [repr] of a
    float never contains a line break. *)
Class PyFloat := {
  float : Type;
  float_sub : float → float → float;
  float_repr : float → string;
  float_repr_one_line : ∀ x, has_newline (float_repr x) = false
}.

(** [pstats] is the standard library's statistics format; the harness only
    loads, adds and dumps.  [stats_load] is [None] on bytes that are not a
    statistics dump. *)
Class Pstats := {
  content : Type;
  stats : Type;
  stats_load : content → option stats;
  stats_add : stats → stats → stats;
  stats_dump : stats → content
}.

(** Exceptions that reach the top level. *)
Inductive exn :=
| FileNotFoundError
| IsADirectoryError
| NotADirectoryError
| IndexError
| ValueError
| UnmarshalError
| HookResolutionError
| OutOfFuel.

(** How a computation ends: a value, [sys.exit(code)] or an uncaught
    exception. *)
Inductive outcome (A : Type) :=
| Return (a : A)
| SystemExit (code : Z)
| Raise (e : exn).
Arguments Return {A} a.
Arguments SystemExit {A} code.
Arguments Raise {A} e.

(** JSON-serialisable values, as hooks may store them in the metadata. *)
#[warnings="-register-all"] Inductive json :=
| JNull
| JBool (b : bool)
| JInt (n : Z)
| JStr (s : string)
| JArr (items : list json)
| JObj (fields : list (string * json)).

(** A Python [dict] with string keys: insertion ordered, a key appears once;
    assigning to a present key keeps its position. *)
Definition dict (V : Type) := list (string * V).

Fixpoint dict_set {V} (k : string) (v : V) (d : dict V) : dict V :=
  match d with
  | [] => [(k, v)]
  | (k', v') :: d' =>
      if decide (k' = k) then (k, v) :: d' else (k', v') :: dict_set k v d'
  end.

Definition dict_keys {V} (d : dict V) : list string := map fst d.
Definition dict_values {V} (d : dict V) : list V := map snd d.

Definition metadata := dict json.

(** ** The file system *)

Inductive node `{Pstats} :=
| File (c : content)
| Dir.

Abbreviation filesystem := (gmap string node).

Section FileSystem.
Context `{Pstats}.

Definition os_path_isfile (p : string) (fs : filesystem) : bool :=
  match fs !! p with
  | Some (File _) => true
  | _ => false
  end.

Definition os_unlink (p : string) (fs : filesystem) : exn + filesystem :=
  match fs !! p with
  | Some (File _) => inr (delete p fs)
  | Some Dir => inl IsADirectoryError
  | None => inl FileNotFoundError
  end.

(** [os.rename] on POSIX.  Directories are leaves here (their entries are
    not tracked); a file does not replace a directory, nor a directory a
    file. *)
Definition os_rename (src dst : string) (fs : filesystem) : exn + filesystem :=
  match fs !! src with
  | None => inl FileNotFoundError
  | Some (File c) =>
      match fs !! dst with
      | Some Dir => inl IsADirectoryError
      | _ => inr (<[dst := File c]> (delete src fs))
      end
  | Some Dir =>
      match fs !! dst with
      | Some (File _) => inl NotADirectoryError
      | _ => inr (<[dst := Dir]> (delete src fs))
      end
  end.

(** [pstats.Stats(p)] *)
Definition Stats (p : string) (fs : filesystem) : exn + stats :=
  match fs !! p with
  | None => inl FileNotFoundError
  | Some Dir => inl IsADirectoryError
  | Some (File c) =>
      match stats_load c with
      | Some s => inr s
      | None => inl UnmarshalError
      end
  end.

(** [s.dump_stats(p)] *)
Definition dump_stats (s : stats) (p : string) (fs : filesystem)
  : exn + filesystem :=
  match fs !! p with
  | Some Dir => inl IsADirectoryError
  | _ => inr (<[p := File (stats_dump s)]> fs)
  end.

(** [merge_profile_stats_files(src, dst)], lines 47-59. *)
Definition merge_profile_stats_files (src dst : string) (fs : filesystem)
  : exn + filesystem :=
  if os_path_isfile dst fs then
    match Stats src fs with
    | inl e => inl e
    | inr src_stats =>
        match Stats dst fs with
        | inl e => inl e
        | inr dst_stats =>
            let dst_stats := stats_add dst_stats src_stats in
            match dump_stats dst_stats dst fs with
            | inl e => inl e
            | inr fs1 => os_unlink src fs1
            end
        end
    end
  else os_rename src dst fs.

End FileSystem.

(** ** The host and the world *)

(** The keyword arguments handed to [subprocess.Popen]. *)
Inductive redirect := DEVNULL | DevnullHandle | STDOUT.

Record popen_kw := {
  kw_stdin : redirect;
  kw_stdout : redirect;
  kw_stderr : redirect
}.

(** What [subprocess.Popen(args, **kw)] followed by [proc.wait()] does:
    [Popen] raises, or the child runs, changes the file system and ends
    with a return code. *)
Inductive child_outcome `{Pstats} :=
| SpawnError (e : exn)
| Exited (returncode : Z) (effect : filesystem → filesystem).

(** Modelled from the spec: the hook classes live in [pyperf/_hooks.py],
    which is not among the sources at hand.  A hook instance is a scoped
    resource with a [teardown(metadata)] method that may write into the
    metadata; entering and leaving it complete without raising, and leaving
    it does not swallow an exception in flight. *)
Record hook := {
  hook_name : string;
  hook_teardown : metadata → metadata
}.

(** Everything the script asks of its surroundings.  Readings are indexed by
    the number of earlier calls of the same kind. *)
Class Host `{PyFloat, Pstats} := {
  resource_available : bool;         (* [import resource] succeeded *)
  platform_darwin : bool;            (* [sys.platform == 'darwin'] *)
  clock_reading : nat → float;       (* [time.perf_counter()] *)
  ru_maxrss : bool → nat → Z;        (* [getrusage(who).ru_maxrss] *)
  spawn : nat → list string → popen_kw → child_outcome;
  mktemp_name : string;              (* [tempfile.mktemp()] *)
  pyperf_in_sys_modules : bool;
  subprocess_has_DEVNULL : bool;
  int_of_str : string → option Z;    (* built-in [int()], [None]: ValueError *)
  executable_basename : string;      (* [os.path.basename(sys.executable)] *)
  script_file : string;              (* [__file__] *)
  hook_registry : string → option hook
}.

(** Observable steps, in the order they happen. *)
Inductive event `{PyFloat} :=
| EvClock (t : float)
| EvMktemp (p : string)
| EvMaxRss (children : bool) (rss : Z)
| EvSpawn (args : list string) (kw : popen_kw)
| EvEnter (name : string)
| EvLeave (name : string)
| EvTeardown (name : string)
| EvMetaSet (key : string)
| EvStdout (text : string)
| EvStderr (text : string).

Record world `{PyFloat, Pstats} := {
  w_clock : nat;                (* perf_counter calls so far *)
  w_rusage : nat;               (* getrusage calls so far *)
  w_spawned : nat;              (* children spawned so far *)
  w_fs : filesystem;
  w_argv : list string;         (* sys.argv *)
  w_metadata : metadata;        (* the one dict shared by main and the hooks *)
  w_stdout : string;
  w_stderr : string;
  w_trace : list event
}.

Section Harness.
Context `{FloatI : PyFloat, PstatsI : Pstats, HostI : !Host}.

Definition M (A : Type) : Type := world → outcome A * world.

Definition ret {A} (a : A) : M A := λ w, (Return a, w).

Definition bind {A B} (c : M A) (k : A → M B) : M B := λ w,
  match c w with
  | (Return a, w') => k a w'
  | (SystemExit code, w') => (SystemExit code, w')
  | (Raise e, w') => (Raise e, w')
  end.

Definition raise {A} (e : exn) : M A := λ w, (Raise e, w).

(** [sys.exit(code)] raises SystemExit. *)
Definition sys_exit {A} (code : Z) : M A := λ w, (SystemExit code, w).

Definition log (e : event) (w : world) : world :=
  {| w_clock := w_clock w; w_rusage := w_rusage w; w_spawned := w_spawned w;
     w_fs := w_fs w; w_argv := w_argv w; w_metadata := w_metadata w;
     w_stdout := w_stdout w; w_stderr := w_stderr w;
     w_trace := w_trace w ++ [e] |}.

Definition set_fs (fs : filesystem) (w : world) : world :=
  {| w_clock := w_clock w; w_rusage := w_rusage w; w_spawned := w_spawned w;
     w_fs := fs; w_argv := w_argv w; w_metadata := w_metadata w;
     w_stdout := w_stdout w; w_stderr := w_stderr w;
     w_trace := w_trace w |}.

Definition set_argv (argv : list string) (w : world) : world :=
  {| w_clock := w_clock w; w_rusage := w_rusage w; w_spawned := w_spawned w;
     w_fs := w_fs w; w_argv := argv; w_metadata := w_metadata w;
     w_stdout := w_stdout w; w_stderr := w_stderr w;
     w_trace := w_trace w |}.

Definition set_metadata (m : metadata) (w : world) : world :=
  {| w_clock := w_clock w; w_rusage := w_rusage w; w_spawned := w_spawned w;
     w_fs := w_fs w; w_argv := w_argv w; w_metadata := m;
     w_stdout := w_stdout w; w_stderr := w_stderr w;
     w_trace := w_trace w |}.

Definition tick_clock (w : world) : world :=
  {| w_clock := S (w_clock w); w_rusage := w_rusage w;
     w_spawned := w_spawned w;
     w_fs := w_fs w; w_argv := w_argv w; w_metadata := w_metadata w;
     w_stdout := w_stdout w; w_stderr := w_stderr w;
     w_trace := w_trace w |}.

Definition tick_rusage (w : world) : world :=
  {| w_clock := w_clock w; w_rusage := S (w_rusage w);
     w_spawned := w_spawned w;
     w_fs := w_fs w; w_argv := w_argv w; w_metadata := w_metadata w;
     w_stdout := w_stdout w; w_stderr := w_stderr w;
     w_trace := w_trace w |}.

Definition tick_spawned (w : world) : world :=
  {| w_clock := w_clock w; w_rusage := w_rusage w;
     w_spawned := S (w_spawned w);
     w_fs := w_fs w; w_argv := w_argv w; w_metadata := w_metadata w;
     w_stdout := w_stdout w; w_stderr := w_stderr w;
     w_trace := w_trace w |}.

Definition put_stdout (s : string) (w : world) : world :=
  {| w_clock := w_clock w; w_rusage := w_rusage w; w_spawned := w_spawned w;
     w_fs := w_fs w; w_argv := w_argv w; w_metadata := w_metadata w;
     w_stdout := w_stdout w +:+ s; w_stderr := w_stderr w;
     w_trace := w_trace w ++ [EvStdout s] |}.

Definition put_stderr (s : string) (w : world) : world :=
  {| w_clock := w_clock w; w_rusage := w_rusage w; w_spawned := w_spawned w;
     w_fs := w_fs w; w_argv := w_argv w; w_metadata := w_metadata w;
     w_stdout := w_stdout w; w_stderr := w_stderr w +:+ s;
     w_trace := w_trace w ++ [EvStderr s] |}.

Definition act (f : world → world) : M unit := λ w, (Return tt, f w).
Definition ask {A} (f : world → A) : M A := λ w, (Return (f w), w).

(** A file-system call: the new file system, or the exception with the
    file system as it was. *)
Definition fs_call (f : filesystem → exn + filesystem) : M unit := λ w,
  match f (w_fs w) with
  | inl e => (Raise e, w)
  | inr fs' => (Return tt, set_fs fs' w)
  end.

End Harness.

Declare Scope harness_scope.
Delimit Scope harness_scope with M.
Notation "x <- c ;; k" := (bind c (λ x, k))
  (at level 20, c at level 99, k at level 200) : harness_scope.
Notation "' pat <- c ;; k" := (bind c (λ x, match x with pat => k end))
  (at level 20, pat pattern, c at level 99, k at level 200) : harness_scope.
Notation "c ;; k" := (bind c (λ _, k))
  (at level 100, k at level 200, right associativity) : harness_scope.

Section Benchmark.
Context `{FloatI : PyFloat, PstatsI : Pstats, HostI : !Host}.
Local Open Scope harness_scope.

Definition newline_str : string := String newline EmptyString.

(** [print(s, file=sys.stdout)] and [print(s, file=sys.stderr)] *)
Definition print_stdout (s : string) : M unit :=
  act (put_stdout (s +:+ newline_str)).
Definition print_stderr (s : string) : M unit :=
  act (put_stderr (s +:+ newline_str)).

(** [time.perf_counter()] *)
Definition perf_counter : M float := λ w,
  let t := clock_reading (w_clock w) in
  (Return t, log (EvClock t) (tick_clock w)).

(** [resource.getrusage(who).ru_maxrss] *)
Definition getrusage_maxrss (children : bool) : M Z := λ w,
  (Return (ru_maxrss children (w_rusage w)), tick_rusage w).

(** [get_max_rss] (keyword-only argument [children]), lines 32-44.  Each
    call is logged with the value it returns. *)
Definition get_max_rss (children : bool) : M Z :=
  rss <- (if resource_available then
            usage <- getrusage_maxrss children ;;
            (* macOS returns bytes, Linux returns kilobytes *)
            if platform_darwin then ret usage else ret (usage * 1024)
          else ret 0) ;;
  act (log (EvMaxRss children rss)) ;;
  ret rss.

(** [proc = subprocess.Popen(args, **kw)], [with proc: proc.wait()],
    [proc.returncode]. *)
Definition popen_wait (args : list string) (kw : popen_kw) : M Z := λ w,
  let w1 := log (EvSpawn args kw) (tick_spawned w) in
  match spawn (w_spawned w) args kw with
  | SpawnError e => (Raise e, w1)
  | Exited returncode effect =>
      (Return returncode, set_fs (effect (w_fs w1)) w1)
  end.

(** [tempfile.mktemp()] *)
Definition mktemp : M string := λ w,
  (Return mktemp_name, log (EvMktemp mktemp_name) w).

(** Truth value of [profile_filename]: [None] and the empty string are
    false. *)
Definition truthy (profile_filename : option string) : bool :=
  match profile_filename with
  | Some (String _ _) => true
  | _ => false
  end.

(** [args[0]] *)
Definition getitem {A} (l : list A) (i : nat) : M A :=
  match l !! i with
  | Some x => ret x
  | None => raise IndexError
  end.

(** The body of the [for] loop, lines 73-96; returns the new [max_rss]. *)
Definition bench_iteration (args : list string) (kw : popen_kw)
    (profile_filename : option string) (temp_profile_filename : string)
    (max_rss : Z) : M Z :=
  start_rss <- get_max_rss true ;;
  exitcode <- popen_wait args kw ;;
  (if decide (exitcode ≠ 0) then
     print_stderr ("Command failed with exit code " +:+ pretty exitcode) ;;
     (if truthy profile_filename
      then fs_call (os_unlink temp_profile_filename) else ret tt) ;;
     sys_exit exitcode
   else ret tt) ;;
  end_rss <- get_max_rss true ;;
  let rss := end_rss - start_rss in
  let max_rss := Z.max max_rss rss in
  (if truthy profile_filename
   then fs_call (merge_profile_stats_files temp_profile_filename
                   (default EmptyString profile_filename))
   else ret tt) ;;
  ret max_rss.

(** [for _ in range_it], with [n] iterations left. *)
Fixpoint bench_loop (n : nat) (args : list string) (kw : popen_kw)
    (profile_filename : option string) (temp_profile_filename : string)
    (max_rss : Z) : M Z :=
  match n with
  | O => ret max_rss
  | S n' =>
      max_rss <- bench_iteration args kw profile_filename
                   temp_profile_filename max_rss ;;
      bench_loop n' args kw profile_filename temp_profile_filename max_rss
  end.

(** [bench_process(loops, args, kw, profile_filename=None)], lines 62-99.
    [range(loops)] is empty for [loops <= 0].  [temp_profile_filename] is
    only bound when profiling; the loop reads it only then. *)
Definition bench_process (loops : Z) (args : list string) (kw : popen_kw)
    (profile_filename : option string) : M (float * Z) :=
  let max_rss := 0 in
  let range_it := Z.to_nat loops in
  start_time <- perf_counter ;;
  '(temp_profile_filename, args) <-
    (if truthy profile_filename then
       temp_profile_filename <- mktemp ;;
       args0 <- getitem args 0 ;;
       ret (temp_profile_filename,
            [args0; "-m"; "cProfile"; "-o"; temp_profile_filename]
              ++ drop 1 args)
     else ret (EmptyString, args)) ;;
  max_rss <- bench_loop range_it args kw profile_filename
               temp_profile_filename max_rss ;;
  end_time <- perf_counter ;;
  let dt := float_sub end_time start_time in
  ret (dt, max_rss).

End Benchmark.

(** ** The result emitter *)

Definition dquote : ascii := ascii_of_nat 34.
Definition backslash : ascii := ascii_of_nat 92.

Definition hex_digit (n : N) : ascii :=
  match n with
  | 0 => "0" | 1 => "1" | 2 => "2" | 3 => "3" | 4 => "4" | 5 => "5"
  | 6 => "6" | 7 => "7" | 8 => "8" | 9 => "9" | 10 => "a" | 11 => "b"
  | 12 => "c" | 13 => "d" | 14 => "e" | _ => "f"
  end%char%N.

(** One character of a string under [json.dumps] with its defaults
    ([ensure_ascii=True]): the short escapes, printable ASCII as it is, and
    a four-digit hexadecimal escape for the rest.  A [string] stands for a
    Python [str] whose code points are below 256. *)
Definition json_escape_char (c : ascii) : string :=
  let n := N_of_ascii c in
  if decide (c = dquote) then String backslash (String dquote EmptyString)
  else if decide (c = backslash)
       then String backslash (String backslash EmptyString)
  else if decide (n = 8)%N then String backslash "b"
  else if decide (n = 9)%N then String backslash "t"
  else if decide (n = 10)%N then String backslash "n"
  else if decide (n = 12)%N then String backslash "f"
  else if decide (n = 13)%N then String backslash "r"
  else if decide (32 ≤ n ∧ n ≤ 126)%N then String c EmptyString
  else String backslash
         (String "u" (String "0" (String "0"
            (String (hex_digit (n `div` 16)%N)
               (String (hex_digit (n `mod` 16)%N) EmptyString))))).

Fixpoint json_escape (s : string) : string :=
  match s with
  | EmptyString => EmptyString
  | String c s' => json_escape_char c +:+ json_escape s'
  end.

Definition json_string (s : string) : string :=
  String dquote (json_escape s +:+ String dquote EmptyString).

(** [sep.join(parts)] *)
Fixpoint str_join (sep : string) (parts : list string) : string :=
  match parts with
  | [] => EmptyString
  | [p] => p
  | p :: rest => p +:+ sep +:+ str_join sep rest
  end.

(** [json.dumps(v)] with the default separators and no indentation. *)
Fixpoint json_dumps (v : json) : string :=
  match v with
  | JNull => "null"
  | JBool true => "true"
  | JBool false => "false"
  | JInt n => pretty n
  | JStr s => json_string s
  | JArr items => "[" +:+ str_join ", " (map json_dumps items) +:+ "]"
  | JObj fields =>
      "{" +:+ str_join ", "
                (map (λ kv, json_string (fst kv) +:+ ": "
                              +:+ json_dumps (snd kv)) fields)
          +:+ "}"
  end.

Section Emitter.
Context `{FloatI : PyFloat, PstatsI : Pstats, HostI : !Host}.
Local Open Scope harness_scope.

(** [write_data(dt, max_rss, metadata, out=sys.stdout)], lines 123-131.
    [max_rss or -1] is [-1] when [max_rss] is [0]. *)
Definition write_data (dt : float) (max_rss : Z) (md : metadata) : M unit :=
  print_stdout (float_repr dt) ;;
  print_stdout (pretty (if decide (max_rss = 0) then -1 else max_rss)) ;;
  act (put_stdout (json_dumps (JObj md))) ;;
  print_stdout EmptyString.

End Emitter.

(** ** Hooks and the entry point *)

Section Main.
Context `{FloatI : PyFloat, PstatsI : Pstats, HostI : !Host}.
Local Open Scope harness_scope.

(** [l.index(x)] for an [x] that occurs in [l]. *)
Fixpoint index_of (x : string) (l : list string) : nat :=
  match l with
  | [] => O
  | y :: l' => if decide (y = x) then O else S (index_of x l')
  end.

(** [del sys.argv[i]] *)
Definition del_argv (i : nat) : M unit :=
  act (λ w, set_argv (delete i (w_argv w)) w).

(** Modelled from the spec: [pyperf._hooks.instantiate_selected_hooks] is
    not part of the sources at hand.  Names are resolved in order against
    the known hooks into a mapping from name to instance; an unknown name
    fails with a HookResolutionError. *)
Fixpoint instantiate_selected_hooks (hook_names : list string)
    (acc : dict hook) : exn + dict hook :=
  match hook_names with
  | [] => inr acc
  | name :: rest =>
      match hook_registry name with
      | None => inl HookResolutionError
      | Some h => instantiate_selected_hooks rest (dict_set name h acc)
      end
  end.

(** The [while "--hook" in sys.argv] loop of [load_hooks], lines 104-109.
    Every round removes two entries of [sys.argv], so [length sys.argv]
    rounds are enough. *)
Fixpoint scan_hooks (fuel : nat) (hook_names : list string)
    : M (list string) :=
  argv <- ask w_argv ;;
  if decide ("--hook" ∈ argv) then
    match fuel with
    | O => raise OutOfFuel
    | S fuel' =>
        let hook_idx := index_of "--hook" argv in
        hook_name <- getitem argv (hook_idx + 1) ;;
        del_argv hook_idx ;;
        del_argv hook_idx ;;
        scan_hooks fuel' (hook_names ++ [hook_name])
    end
  else ret hook_names.

(** [load_hooks(metadata)], lines 102-120; [metadata] is the shared dict. *)
Definition load_hooks : M (dict hook) :=
  argv <- ask w_argv ;;
  hook_names <- scan_hooks (length argv) [] ;;
  match hook_names with
  | _ :: _ =>
      match instantiate_selected_hooks hook_names [] with
      | inl e => raise e
      | inr hook_managers =>
          act (λ w, log (EvMetaSet "hooks")
                      (set_metadata
                         (dict_set "hooks"
                            (JStr (str_join ", " (dict_keys hook_managers)))
                            (w_metadata w)) w)) ;;
          ret hook_managers
      end
  | [] => ret []
  end.

(** [with contextlib.ExitStack() as stack], lines 176-179: the hooks are
    entered in order and left in reverse order however the body ends; the
    outcome of the body is the outcome of the block (see [hook]). *)
Definition with_ExitStack {A} (hooks : list hook) (body : M A) : M A := λ w,
  let w1 := fold_left (λ w h, log (EvEnter (hook_name h)) w) hooks w in
  let '(o, w2) := body w1 in
  (o, fold_left (λ w h, log (EvLeave (hook_name h)) w) (rev hooks) w2).

(** [for hook in hook_managers.values(): hook.teardown(metadata)] *)
Fixpoint teardown_all (hooks : list hook) : M unit :=
  match hooks with
  | [] => ret tt
  | h :: rest =>
      act (λ w, log (EvTeardown (hook_name h))
                  (set_metadata (hook_teardown h (w_metadata w)) w)) ;;
      teardown_all rest
  end.

(** The [--profile] option, lines 148-154. *)
Definition take_profile : M (option string) :=
  argv <- ask w_argv ;;
  if decide ("--profile" ∈ argv) then
    let profile_idx := index_of "--profile" argv in
    profile_filename <- getitem argv (profile_idx + 1) ;;
    del_argv profile_idx ;;
    del_argv profile_idx ;;
    ret (Some profile_filename)
  else ret None.

(** [int(s)] *)
Definition py_int (s : string) : M Z :=
  match int_of_str s with
  | Some n => ret n
  | None => raise ValueError
  end.

(** The redirections of lines 163-173. *)
Definition popen_keywords : popen_kw :=
  if subprocess_has_DEVNULL
  then {| kw_stdin := DEVNULL; kw_stdout := DEVNULL; kw_stderr := STDOUT |}
  else {| kw_stdin := DevnullHandle; kw_stdout := DevnullHandle;
          kw_stderr := STDOUT |}.

(** The local variables of [main] when it reaches the [with] block. *)
Record run_config := {
  cfg_loops : Z;
  cfg_args : list string;
  cfg_kw : popen_kw;
  cfg_profile_filename : option string;
  cfg_hook_managers : dict hook
}.

(** [main()] up to the [with] block, lines 135-173. *)
Definition main_setup : M run_config :=
  (if pyperf_in_sys_modules then
     print_stdout ("ERROR: don't run " +:+ executable_basename
                   +:+ " -m pyperf._process, run the .py script") ;;
     sys_exit 1
   else ret tt) ;;
  argv <- ask w_argv ;;
  (if decide (length argv < 3)%nat then
     print_stdout ("Usage: " +:+ executable_basename +:+ " " +:+ script_file
                   +:+ " loops program [arg1 arg2 ...] [--profile profile]") ;;
     sys_exit 1
   else ret tt) ;;
  profile_filename <- take_profile ;;
  act (set_metadata []) ;;
  hook_managers <- load_hooks ;;
  argv <- ask w_argv ;;
  loops_arg <- getitem argv 1 ;;
  loops <- py_int loops_arg ;;
  let args := drop 2 argv in
  ret {| cfg_loops := loops; cfg_args := args; cfg_kw := popen_keywords;
         cfg_profile_filename := profile_filename;
         cfg_hook_managers := hook_managers |}.

(** [main()], lines 134-188.  Closing [devnull] (lines 181-182) changes
    nothing that is observed here. *)
Definition main : M unit :=
  cfg <- main_setup ;;
  let hooks := dict_values (cfg_hook_managers cfg) in
  '(dt, max_rss) <- with_ExitStack hooks
                      (bench_process (cfg_loops cfg) (cfg_args cfg)
                         (cfg_kw cfg) (cfg_profile_filename cfg)) ;;
  teardown_all hooks ;;
  md <- ask w_metadata ;;
  write_data dt max_rss md.

End Main.

(** ** Reading a run *)

(** The lines of a text: every line break ends a line; text after the last
    line break is a last, unterminated line. *)
Fixpoint split_lines (s : string) : list string :=
  match s with
  | EmptyString => []
  | String c s' =>
      if decide (c = newline) then EmptyString :: split_lines s'
      else match split_lines s' with
           | [] => [String c EmptyString]
           | l :: ls => String c l :: ls
           end
  end.

Section Views.
Context `{FloatI : PyFloat, PstatsI : Pstats, HostI : !Host}.

(** What [get_max_rss(children=True)] returns when the next [getrusage]
    call is call number [k]. *)
Definition rss_reading (k : nat) : Z :=
  if resource_available then
    if platform_darwin then ru_maxrss true k else ru_maxrss true k * 1024
  else 0.

(** The command the loop spawns: rewritten for cProfile when profiling. *)
Definition effective_args (profile_filename : option string)
    (args : list string) : list string :=
  if truthy profile_filename then
    [default EmptyString (head args); "-m"; "cProfile"; "-o"; mktemp_name]
      ++ drop 1 args
  else args.

Definition effective_temp (profile_filename : option string) : string :=
  if truthy profile_filename then mktemp_name else EmptyString.

(** The events of iteration [i] of a loop whose first [getrusage] call is
    call number [r0]: a sample, the spawn, a sample. *)
Definition iteration_events (r0 : nat) (args : list string) (kw : popen_kw)
    (i : nat) : list event :=
  [EvMaxRss true (rss_reading (r0 + 2 * i));
   EvSpawn args kw;
   EvMaxRss true (rss_reading (r0 + 2 * i + 1))].

(** The memory delta of iteration [i]: sample after minus sample before. *)
Definition iteration_delta (r0 : nat) (i : nat) : Z :=
  rss_reading (r0 + 2 * i + 1) - rss_reading (r0 + 2 * i).

Definition returncode_of (o : child_outcome) : option Z :=
  match o with
  | Exited rc _ => Some rc
  | SpawnError _ => None
  end.

Definition effect_of (o : child_outcome) : filesystem → filesystem :=
  match o with
  | Exited _ effect => effect
  | SpawnError _ => id
  end.

(** Children number [k], ..., [k + n - 1] all end with return code 0. *)
Definition children_exit_zero (n k : nat) (args : list string)
    (kw : popen_kw) : Prop :=
  ∀ i, (i < n)%nat → returncode_of (spawn (k + i) args kw) = Some 0.

(** The file system through [n] iterations that start with child number
    [k]: each child acts on it, then the profile of the iteration is merged
    when profiling.  [inl] when a merge raises. *)
Fixpoint profile_steps (n k : nat) (args : list string) (kw : popen_kw)
    (profile_filename : option string) (temp : string) (fs : filesystem)
    : exn + filesystem :=
  match n with
  | O => inr fs
  | S n' =>
      let fs1 := effect_of (spawn k args kw) fs in
      let merged :=
        if truthy profile_filename
        then merge_profile_stats_files temp
               (default EmptyString profile_filename) fs1
        else inr fs1 in
      match merged with
      | inl e => inl e
      | inr fs2 => profile_steps n' (S k) args kw profile_filename temp fs2
      end
  end.

(** The events of a whole run of [bench_process] that succeeds, started
    when the clock has been read [c] times and [getrusage] called [r]
    times. *)
Definition bench_events (c r : nat) (loops : Z) (args : list string)
    (kw : popen_kw) (pf : option string) : list event :=
  [EvClock (clock_reading c)]
  ++ (if truthy pf then [EvMktemp mktemp_name] else [])
  ++ flat_map (iteration_events r (effective_args pf args) kw)
       (seq 0 (Z.to_nat loops))
  ++ [EvClock (clock_reading (S c))].

(** What the loop leaves alone. *)
Definition loop_frame (w w' : world) : Prop :=
  w_clock w' = w_clock w ∧ w_argv w' = w_argv w
  ∧ w_metadata w' = w_metadata w ∧ w_stdout w' = w_stdout w.

(** The failure branch of an iteration, lines 81-86: the message on stderr,
    and the file system after the clean-up when it does not raise. *)
Definition failure_message (exitcode : Z) : string :=
  "Command failed with exit code " +:+ pretty exitcode +:+ newline_str.

Definition failure_cleanup (profile_filename : option string) (temp : string)
    (fs : filesystem) : exn + filesystem :=
  if truthy profile_filename then os_unlink temp fs else inr fs.

(** The events the benchmark loop can log. *)
Definition bench_event (e : event) : Prop :=
  match e with
  | EvClock _ | EvMktemp _ | EvMaxRss _ _ | EvSpawn _ _ | EvStderr _ => True
  | _ => False
  end.

(** What [bench_process] can change however it ends: it appends loop
    events to the trace and leaves the metadata, stdout and [sys.argv]
    alone. *)
Definition bench_frame (w w' : world) : Prop :=
  ∃ tr, w_trace w' = w_trace w ++ tr
        ∧ Forall bench_event tr
        ∧ w_metadata w' = w_metadata w
        ∧ w_stdout w' = w_stdout w
        ∧ w_argv w' = w_argv w.

Definition keeps_frame {A} (c : M A) : Prop := ∀ w, bench_frame w (snd (c w)).

(** Only [sys.argv] differs. *)
Definition argv_frame (w w' : world) : Prop := w' = set_argv (w_argv w') w.

(** The metadata right after [load_hooks]: the key [hooks] when hooks were
    asked for, nothing otherwise. *)
Definition hooks_metadata (hm : dict hook) : metadata :=
  match hm with
  | [] => []
  | _ => [("hooks", JStr (str_join ", " (dict_keys hm)))]
  end.

Definition hooks_events (hm : dict hook) : list event :=
  match hm with
  | [] => []
  | _ => [EvMetaSet "hooks"]
  end.

(** Projections of a trace. *)
Definition ev_teardown (e : event) : option string :=
  match e with EvTeardown name => Some name | _ => None end.
Definition ev_enter (e : event) : option string :=
  match e with EvEnter name => Some name | _ => None end.
Definition ev_leave (e : event) : option string :=
  match e with EvLeave name => Some name | _ => None end.
Definition ev_metaset (e : event) : option string :=
  match e with EvMetaSet key => Some key | _ => None end.
Definition ev_spawn (e : event) : option (list string) :=
  match e with EvSpawn args _ => Some args | _ => None end.

Definition ev_clock (e : event) : option float :=
  match e with EvClock t => Some t | _ => None end.
Definition ev_sample (e : event) : option Z :=
  match e with EvMaxRss true rss => Some rss | _ => None end.

(** The memory samples and spawns of a trace, in order. *)
Definition ev_memory (e : event) : option event :=
  match e with
  | EvMaxRss _ _ | EvSpawn _ _ => Some e
  | _ => None
  end.

(** The events logged between two worlds of one run. *)
Definition trace_since (w w' : world) : list event :=
  drop (length (w_trace w)) (w_trace w').

(** The clock, temporary-name and spawn steps of a trace, in order. *)
Inductive timeline_step := Clock | Mktemp | Spawn.

Definition ev_timeline (e : event) : option timeline_step :=
  match e with
  | EvClock _ => Some Clock
  | EvMktemp _ => Some Mktemp
  | EvSpawn _ _ => Some Spawn
  | _ => None
  end.

(** The three lines of a result. *)
Definition memory_line (max_rss : Z) : string :=
  pretty (if decide (max_rss = 0) then -1 else max_rss).

Definition emitted (dt : float) (max_rss : Z) (md : metadata) : string :=
  float_repr dt +:+ newline_str
  +:+ memory_line max_rss +:+ newline_str
  +:+ json_dumps (JObj md) +:+ newline_str.

(** The world with more events logged. *)
Definition add_trace (tr : list event) (w : world) : world :=
  {| w_clock := w_clock w; w_rusage := w_rusage w; w_spawned := w_spawned w;
     w_fs := w_fs w; w_argv := w_argv w; w_metadata := w_metadata w;
     w_stdout := w_stdout w; w_stderr := w_stderr w;
     w_trace := w_trace w ++ tr |}.

(** The events of the result emitter. *)
Definition emit_events (dt : float) (max_rss : Z) (md : metadata)
    : list event :=
  [EvStdout (float_repr dt +:+ newline_str);
   EvStdout (memory_line max_rss +:+ newline_str);
   EvStdout (json_dumps (JObj md));
   EvStdout newline_str].

(** The metadata once every hook in [hooks] has run its teardown. *)
Definition metadata_after_teardown (hooks : list hook) (md : metadata)
    : metadata :=
  fold_left (λ md h, hook_teardown h md) hooks md.

End Views.

(** * Properties *)

(** ** Text without line breaks *)

Lemma has_newline_app (a b : string) :
  has_newline (a +:+ b) = has_newline a || has_newline b.
Proof.
  induction a as [|c a IH]; simpl; [done|].
  by destruct (decide (c = newline)).
Qed.

Lemma pretty_N_char_no_newline (x : N) : pretty_N_char x ≠ newline.
Proof. unfold pretty_N_char. by repeat case_match. Qed.

Lemma pretty_N_go_one_line (x : N) (s : string) :
  has_newline s = false → has_newline (pretty_N_go x s) = false.
Proof.
  revert s. induction (N.lt_wf_0 x) as [x _ IH]; intros s Hs.
  destruct (decide (x = 0)%N) as [->|Hx].
  - by rewrite pretty_N_go_0.
  - rewrite pretty_N_go_step by lia. apply IH.
    + apply N.div_lt; lia.
    + simpl. destruct (decide (pretty_N_char (x `mod` 10) = newline)) as [E|_].
      * by destruct (pretty_N_char_no_newline _ E).
      * done.
Qed.

Lemma pretty_N_one_line (x : N) : has_newline (pretty x) = false.
Proof.
  unfold pretty, pretty_N. case_decide; [done|].
  by apply pretty_N_go_one_line.
Qed.

Lemma pretty_Z_one_line (z : Z) : has_newline (pretty z) = false.
Proof.
  destruct z as [|p|p].
  - reflexivity.
  - apply (pretty_N_one_line (N.pos p)).
  - change (pretty (Z.neg p)) with ("-" +:+ pretty (N.pos p)).
    rewrite has_newline_app, pretty_N_one_line. reflexivity.
Qed.

Lemma hex_digit_no_newline (n : N) : hex_digit n ≠ newline.
Proof. unfold hex_digit. by repeat case_match. Qed.

Lemma json_escape_char_one_line (c : ascii) :
  has_newline (json_escape_char c) = false.
Proof.
  unfold json_escape_char.
  repeat case_decide; try done; simpl.
  - case_decide as E; [|done]. subst c. by destruct H3.
  - repeat case_decide; try done; by edestruct hex_digit_no_newline.
Qed.

Lemma json_escape_one_line (s : string) : has_newline (json_escape s) = false.
Proof.
  induction s as [|c s IH]; [done|]. simpl.
  by rewrite has_newline_app, json_escape_char_one_line, IH.
Qed.

Lemma json_string_one_line (s : string) : has_newline (json_string s) = false.
Proof.
  unfold json_string. simpl.
  by rewrite has_newline_app, json_escape_one_line.
Qed.

Lemma str_join_one_line (sep : string) (parts : list string) :
  has_newline sep = false →
  Forall (λ p, has_newline p = false) parts →
  has_newline (str_join sep parts) = false.
Proof.
  intros Hsep. induction 1 as [|p parts Hp _ IH]; [done|].
  destruct parts as [|q parts]; [done|].
  change (str_join sep (p :: q :: parts))
    with (p +:+ sep +:+ str_join sep (q :: parts)).
  by rewrite !has_newline_app, Hp, Hsep, IH.
Qed.

Lemma json_dumps_one_line (v : json) : has_newline (json_dumps v) = false.
Proof.
  revert v. fix IH 1. intros [| [|] | n | s | items | fields].
  - reflexivity.
  - reflexivity.
  - reflexivity.
  - apply pretty_Z_one_line.
  - apply json_string_one_line.
  - change (json_dumps (JArr items))
      with ("[" +:+ str_join ", " (map json_dumps items) +:+ "]").
    rewrite !has_newline_app, str_join_one_line; [done..|].
    induction items as [|v items IHitems]; constructor; [apply IH|done].
  - change (json_dumps (JObj fields))
      with ("{" +:+ str_join ", "
              (map (λ kv, json_string (fst kv) +:+ ": "
                            +:+ json_dumps (snd kv)) fields) +:+ "}").
    rewrite !has_newline_app, str_join_one_line; [done..|].
    induction fields as [|[k v] fields IHfields]; constructor; [|done].
    cbn [fst snd]. rewrite !has_newline_app, json_string_one_line, IH. done.
Qed.

Lemma split_lines_line (l rest : string) :
  has_newline l = false →
  split_lines (l +:+ newline_str +:+ rest) = l :: split_lines rest.
Proof.
  induction l as [|c l IH]; intros Hl.
  - simpl. by destruct (decide (newline = newline)).
  - simpl in Hl |- *. destruct (decide (c = newline)); [done|].
    by rewrite IH.
Qed.

Lemma app_assoc_str (a b c : string) : (a +:+ b) +:+ c = a +:+ (b +:+ c).
Proof.
  induction a as [|x a IH]; [done|]. exact (f_equal (String x) IH).
Qed.

Lemma app_empty_str (a : string) : a +:+ EmptyString = a.
Proof.
  induction a as [|x a IH]; [done|]. exact (f_equal (String x) IH).
Qed.

Section EmitterProperties.
Context `{FloatI : PyFloat, PstatsI : Pstats, HostI : !Host}.

Lemma write_data_run (dt : float) (max_rss : Z) (md : metadata) (w : world) :
  ∃ w', write_data dt max_rss md w = (Return tt, w')
        ∧ w_stdout w' = w_stdout w +:+ emitted dt max_rss md
        ∧ w_metadata w' = w_metadata w
        ∧ w_fs w' = w_fs w
        ∧ w_trace w' = w_trace w ++
            [EvStdout (float_repr dt +:+ newline_str);
             EvStdout (memory_line max_rss +:+ newline_str);
             EvStdout (json_dumps (JObj md));
             EvStdout newline_str].
Proof.
  eexists. split; [reflexivity|]. cbn -[String.append pretty json_dumps].
  repeat split.
  - unfold emitted, memory_line. by rewrite !app_assoc_str.
  - by rewrite <-!(assoc_L (++)).
Qed.

(** C7.  [write_data] always returns, and what it appends to stdout is
    exactly three lines, in this order: the [repr] of the elapsed time, the
    peak memory value ([-1] for a zero peak), and the metadata as JSON on one
    line; the text ends with a line break. *)
Theorem write_data_three_lines (dt : float) (max_rss : Z) (md : metadata)
    (w : world) :
  fst (write_data dt max_rss md w) = Return tt
  ∧ w_stdout (snd (write_data dt max_rss md w))
    = w_stdout w +:+ emitted dt max_rss md
  ∧ emitted dt max_rss md
    = float_repr dt +:+ newline_str
      +:+ pretty (if decide (max_rss = 0) then -1 else max_rss) +:+ newline_str
      +:+ json_dumps (JObj md) +:+ newline_str
  ∧ split_lines (emitted dt max_rss md)
    = [float_repr dt;
       pretty (if decide (max_rss = 0) then -1 else max_rss);
       json_dumps (JObj md)]
  ∧ length (split_lines (emitted dt max_rss md)) = 3%nat.
Proof.
  destruct (write_data_run dt max_rss md w) as (w' & -> & Hout & _).
  assert (split_lines (emitted dt max_rss md)
    = [float_repr dt; memory_line max_rss; json_dumps (JObj md)]) as E.
  { unfold emitted.
    rewrite <-(app_empty_str newline_str) at 3.
    rewrite !split_lines_line
      by (unfold memory_line;
          auto using float_repr_one_line, pretty_Z_one_line,
            json_dumps_one_line).
    done. }
  split; [done|]. split; [done|]. split; [done|]. split; [done|].
  by rewrite E.
Qed.

End EmitterProperties.

(** ** The profile merger *)

Section MergerProperties.
Context `{PstatsI : Pstats}.


End MergerProperties.

(** ** The benchmark loop *)

Section BenchProperties.
Context `{FloatI : PyFloat, PstatsI : Pstats, HostI : !Host}.

Lemma rss_reading_unavailable (k : nat) :
  resource_available = false → rss_reading k = 0.
Proof. unfold rss_reading. by intros ->. Qed.

Lemma get_max_rss_run (w : world) :
  get_max_rss true w
  = (Return (rss_reading (w_rusage w)),
     log (EvMaxRss true (rss_reading (w_rusage w)))
       (if resource_available then tick_rusage w else w)).
Proof.
  unfold get_max_rss, rss_reading, bind, getrusage_maxrss, act, ret.
  destruct resource_available; [|done].
  by destruct platform_darwin.
Qed.

(** One iteration whose child ends with return code 0 and whose merge, when
    profiling, succeeds. *)
Lemma bench_iteration_ok args kw pf tmp m (w : world) effect fs2 :
  spawn (w_spawned w) args kw = Exited 0 effect →
  (if truthy pf
   then merge_profile_stats_files tmp (default EmptyString pf)
          (effect (w_fs w))
   else inr (effect (w_fs w))) = inr fs2 →
  ∃ w2,
    bench_iteration args kw pf tmp m w
    = (Return (Z.max m (rss_reading (S (w_rusage w))
                        - rss_reading (w_rusage w))), w2)
    ∧ w_trace w2 = w_trace w ++
        [EvMaxRss true (rss_reading (w_rusage w)); EvSpawn args kw;
         EvMaxRss true (rss_reading (S (w_rusage w)))]
    ∧ w_fs w2 = fs2
    ∧ w_spawned w2 = S (w_spawned w)
    ∧ (resource_available = true → w_rusage w2 = S (S (w_rusage w)))
    ∧ w_stderr w2 = w_stderr w
    ∧ loop_frame w w2.
Proof.
  intros Hspawn Hmerge.
  unfold bench_iteration, bind. rewrite get_max_rss_run.
  unfold popen_wait. cbn [w_spawned log tick_rusage].
  assert (w_spawned (if resource_available then tick_rusage w else w)
          = w_spawned w) as -> by (by destruct resource_available).
  rewrite Hspawn. cbn [decide]. 
  destruct (decide (0 ≠ 0)) as [?|_]; [done|]. unfold ret at 1.
  rewrite get_max_rss_run.
  destruct (truthy pf) eqn:Hpf.
  - unfold fs_call.
    destruct resource_available eqn:Hav; cbn -[merge_profile_stats_files];
      rewrite Hmerge, ?(rss_reading_unavailable _ Hav);
      eexists; (split; [reflexivity|]);
      cbn; rewrite <-?(assoc_L (++)); cbn; repeat split; done.
  - injection Hmerge as <-.
    destruct resource_available eqn:Hav; cbn;
      rewrite ?(rss_reading_unavailable _ Hav);
      eexists; (split; [reflexivity|]);
      cbn; rewrite <-?(assoc_L (++)); cbn; repeat split; done.
Qed.

Lemma loop_frame_trans (w1 w2 w3 : world) :
  loop_frame w1 w2 → loop_frame w2 w3 → loop_frame w1 w3.
Proof.
  intros (?&?&?&?) (?&?&?&?). repeat split; congruence.
Qed.

Lemma rss_reading_index (w : world) (r0 j d : nat) :
  (resource_available = true → w_rusage w = (r0 + 2 * j)%nat) →
  rss_reading (d + w_rusage w) = rss_reading (r0 + 2 * j + d).
Proof.
  intros Hr. destruct resource_available eqn:Hav.
  - rewrite Hr by done. f_equal. lia.
  - by rewrite !rss_reading_unavailable.
Qed.

(** [n] iterations that all succeed. *)
Lemma bench_loop_ok (n : nat) : ∀ args kw pf tmp m (w : world) r0 j fs',
  (resource_available = true → w_rusage w = (r0 + 2 * j)%nat) →
  children_exit_zero n (w_spawned w) args kw →
  profile_steps n (w_spawned w) args kw pf tmp (w_fs w) = inr fs' →
  ∃ w',
    bench_loop n args kw pf tmp m w
    = (Return (fold_left Z.max (map (iteration_delta r0) (seq j n)) m), w')
    ∧ w_trace w' = w_trace w
                   ++ flat_map (iteration_events r0 args kw) (seq j n)
    ∧ w_fs w' = fs'
    ∧ w_spawned w' = (w_spawned w + n)%nat
    ∧ w_stderr w' = w_stderr w
    ∧ loop_frame w w'.
Proof.
  induction n as [|n IH]; intros args kw pf tmp m w r0 j fs' Hr Hch Hfs.
  - injection Hfs as <-. exists w. cbn. rewrite app_nil_r, Nat.add_0_r.
    repeat split; done.
  - pose proof (Hch 0%nat ltac:(lia)) as Hc0. rewrite Nat.add_0_r in Hc0.
    cbn [profile_steps] in Hfs.
    destruct (spawn (w_spawned w) args kw) as [e|rc effect] eqn:Hsp;
      [done|]. injection Hc0 as ->. cbn [effect_of] in Hfs.
    destruct (if truthy pf
              then merge_profile_stats_files tmp (default EmptyString pf)
                     (effect (w_fs w))
              else inr (effect (w_fs w))) as [e|fs2] eqn:Hm; [done|].
    destruct (bench_iteration_ok args kw pf tmp m w effect fs2 Hsp Hm)
      as (w2 & Hrun & Htr & Hfs2 & Hsp2 & Hr2 & Herr2 & Hfr2).
    destruct (IH args kw pf tmp
                (Z.max m (rss_reading (S (w_rusage w))
                          - rss_reading (w_rusage w)))
                w2 r0 (S j) fs') as (w' & Hrun' & Htr' & Hfs' & Hsp' & Herr' & Hfr').
    { intros Hav. rewrite (Hr2 Hav), (Hr Hav). lia. }
    { intros i Hi. rewrite Hsp2.
      replace (S (w_spawned w) + i)%nat with (w_spawned w + S i)%nat by lia.
      apply Hch. lia. }
    { by rewrite Hsp2, Hfs2. }
    exists w'. cbn [bench_loop]. unfold bind at 1. rewrite Hrun, Hrun'.
    pose proof (rss_reading_index w r0 j 0 Hr) as E0.
    pose proof (rss_reading_index w r0 j 1 Hr) as E1.
    cbn [Nat.add] in E0, E1. rewrite Nat.add_0_r in E0.
    split.
    { cbn [seq map fold_left]. unfold iteration_delta at 2.
      by rewrite E0, E1. }
    split.
    { rewrite Htr', Htr. cbn [seq flat_map]. rewrite <-(assoc_L (++)).
      f_equal. unfold iteration_events at 3. by rewrite E0, E1. }
    split; [done|]. split; [rewrite Hsp', Hsp2; lia|].
    split; [congruence|]. by eapply loop_frame_trans.
Qed.

(** The run succeeds when every child ends with 0 and no merge raises. *)
Lemma bench_process_ok loops args kw pf (w : world) fs' :
  (truthy pf = true → args ≠ []) →
  children_exit_zero (Z.to_nat loops) (w_spawned w)
    (effective_args pf args) kw →
  profile_steps (Z.to_nat loops) (w_spawned w) (effective_args pf args) kw
    pf (effective_temp pf) (w_fs w) = inr fs' →
  ∃ w',
    bench_process loops args kw pf w
    = (Return (float_sub (clock_reading (S (w_clock w)))
                 (clock_reading (w_clock w)),
               fold_left Z.max
                 (map (iteration_delta (w_rusage w))
                    (seq 0 (Z.to_nat loops))) 0), w')
    ∧ w_trace w' = w_trace w
                   ++ bench_events (w_clock w) (w_rusage w) loops args kw pf
    ∧ w_clock w' = S (S (w_clock w))
    ∧ w_fs w' = fs'
    ∧ w_spawned w' = (w_spawned w + Z.to_nat loops)%nat
    ∧ w_metadata w' = w_metadata w
    ∧ w_stdout w' = w_stdout w
    ∧ w_stderr w' = w_stderr w
    ∧ w_argv w' = w_argv w.
Proof.
  intros Hargs Hch Hfs.
  unfold bench_process, bench_events, effective_args, effective_temp in *.
  unfold bind at 1. unfold perf_counter at 1.
  set (w1 := log _ (tick_clock w)).
  destruct (truthy pf) eqn:Hpf.
  - destruct args as [|a0 args]; [by destruct Hargs|].
    set (w2 := log (EvMktemp mktemp_name) w1).
    destruct (bench_loop_ok (Z.to_nat loops)
                ([a0; "-m"; "cProfile"; "-o"; mktemp_name] ++ drop 1 (a0 :: args))
                kw pf mktemp_name 0 w2 (w_rusage w) 0%nat fs')
      as (w' & Hrun & Htr & Hfs' & Hsp' & Herr' & Hc & Ha & Hm & Ho);
      [done..|].
    eexists. split.
    { cbn -[bench_loop drop]. fold w1. fold w2. unfold bind.
      cbn [app] in Hrun. rewrite Hrun. unfold perf_counter, ret.
      rewrite Hc. reflexivity. }
    cbn [snd w_trace w_clock w_fs w_spawned w_metadata w_stdout w_stderr
         w_argv log tick_clock].
    split.
    { rewrite Htr. subst w2 w1.
      cbn [w_trace log tick_clock]. by rewrite <-!(assoc_L (++)). }
    subst w2 w1. cbn in Hsp', Herr', Hc, Ha, Hm, Ho.
    repeat split; congruence.
  - destruct (bench_loop_ok (Z.to_nat loops) args kw pf EmptyString 0 w1
                (w_rusage w) 0%nat fs')
      as (w' & Hrun & Htr & Hfs' & Hsp' & Herr' & Hc & Ha & Hm & Ho);
      [done..|].
    eexists. split.
    { cbn -[bench_loop]. fold w1. unfold bind. rewrite Hrun.
      unfold perf_counter, ret. rewrite Hc. reflexivity. }
    cbn [snd w_trace w_clock w_fs w_spawned w_metadata w_stdout w_stderr
         w_argv log tick_clock].
    split.
    { rewrite Htr. subst w1.
      cbn [w_trace log tick_clock]. by rewrite <-!(assoc_L (++)). }
    subst w1. cbn in Hsp', Herr', Hc, Ha, Hm, Ho.
    repeat split; congruence.
Qed.

End BenchProperties.

Section LoopClaims.
Context `{FloatI : PyFloat, PstatsI : Pstats, HostI : !Host}.

Lemma trace_since_app (w w' : world) (tr : list event) :
  w_trace w' = w_trace w ++ tr → trace_since w w' = tr.
Proof. intros E. unfold trace_since. by rewrite E, drop_app_length. Qed.

Lemma timeline_iterations r0 args kw (n j : nat) :
  omap ev_timeline (flat_map (iteration_events r0 args kw) (seq j n))
  = replicate n Spawn.
Proof.
  revert j. induction n as [|n IH]; intros j; [done|].
  cbn [seq flat_map]. rewrite omap_app, IH. done.
Qed.

Lemma memory_iterations r0 args kw (n j : nat) :
  omap ev_memory (flat_map (iteration_events r0 args kw) (seq j n))
  = flat_map (iteration_events r0 args kw) (seq j n).
Proof.
  revert j. induction n as [|n IH]; intros j; [done|].
  cbn [seq flat_map]. rewrite omap_app, IH. done.
Qed.

Lemma fold_left_max_ge (l : list Z) (m : Z) :
  m ≤ fold_left Z.max l m ∧ Forall (λ d, d ≤ fold_left Z.max l m) l.
Proof.
  revert m. induction l as [|d l IH]; intros m; cbn [fold_left].
  - split; [lia|constructor].
  - destruct (IH (Z.max m d)) as [H1 H2]. split; [lia|].
    constructor; [lia|done].
Qed.

Lemma fold_left_max_in (l : list Z) (m : Z) :
  fold_left Z.max l m = m ∨ fold_left Z.max l m ∈ l.
Proof.
  revert m. induction l as [|d l IH]; intros m; cbn [fold_left]; [by left|].
  destruct (IH (Z.max m d)) as [E|E].
  - rewrite E. destruct (Z.max_spec m d) as [[_ ->]|[_ ->]].
    + right. by left.
    + by left.
  - right. by right.
Qed.

(** C6, as the code has it.  In a run whose children all end with 0 and
    whose merges do not raise, the clock is read exactly twice: once before
    anything else (before the temporary name is made and the command is
    rewritten for profiling, and before the first child), once after the
    last child; the elapsed time is the second reading minus the first. *)
Theorem bench_process_clock loops args kw pf (w : world) fs' :
  (truthy pf = true → args ≠ []) →
  children_exit_zero (Z.to_nat loops) (w_spawned w)
    (effective_args pf args) kw →
  profile_steps (Z.to_nat loops) (w_spawned w) (effective_args pf args) kw
    pf (effective_temp pf) (w_fs w) = inr fs' →
  ∃ max_rss w',
    bench_process loops args kw pf w
    = (Return (float_sub (clock_reading (S (w_clock w)))
                 (clock_reading (w_clock w)), max_rss), w')
    ∧ w_clock w' = (w_clock w + 2)%nat
    ∧ omap ev_clock (trace_since w w')
      = [clock_reading (w_clock w); clock_reading (S (w_clock w))]
    ∧ omap ev_timeline (trace_since w w')
      = [Clock] ++ (if truthy pf then [Mktemp] else [])
        ++ replicate (Z.to_nat loops) Spawn ++ [Clock].
Proof.
  intros Hargs Hch Hfs.
  destruct (bench_process_ok loops args kw pf w fs' Hargs Hch Hfs)
    as (w' & Hrun & Htr & Hc & _).
  eexists _, w'. split; [exact Hrun|]. split; [lia|].
  rewrite (trace_since_app _ _ _ Htr). unfold bench_events.
  assert (∀ r a n j,
    omap ev_clock (flat_map (iteration_events r a kw) (seq j n)) = [])
    as Hnoclock.
  { intros r a n. induction n as [|n IH]; intros j; [done|].
    cbn [seq flat_map]. by rewrite omap_app, IH. }
  split.
  - rewrite !omap_app, Hnoclock. by destruct (truthy pf).
  - rewrite !omap_app, timeline_iterations. by destruct (truthy pf).
Qed.

(** C8, as the code has it.  In a run whose children all end with 0 and
    whose merges do not raise, the memory samples and spawns are exactly
    one sample, spawn, sample triple per iteration, so [2 * n] samples for
    [n] iterations, and the peak returned is the running maximum of the
    deltas (sample after minus sample before) starting from [0]. *)
Theorem bench_process_memory loops args kw pf (w : world) fs' :
  (truthy pf = true → args ≠ []) →
  children_exit_zero (Z.to_nat loops) (w_spawned w)
    (effective_args pf args) kw →
  profile_steps (Z.to_nat loops) (w_spawned w) (effective_args pf args) kw
    pf (effective_temp pf) (w_fs w) = inr fs' →
  let n := Z.to_nat loops in
  let deltas := map (iteration_delta (w_rusage w)) (seq 0 n) in
  ∃ dt w',
    bench_process loops args kw pf w
    = (Return (dt, fold_left Z.max deltas 0), w')
    ∧ omap ev_memory (trace_since w w')
      = flat_map (iteration_events (w_rusage w) (effective_args pf args) kw)
          (seq 0 n)
    ∧ length (omap ev_sample (trace_since w w')) = (2 * n)%nat
    ∧ 0 ≤ fold_left Z.max deltas 0
    ∧ Forall (λ d, d ≤ fold_left Z.max deltas 0) deltas
    ∧ (fold_left Z.max deltas 0 = 0 ∨ fold_left Z.max deltas 0 ∈ deltas).
Proof.
  intros Hargs Hch Hfs n deltas.
  destruct (bench_process_ok loops args kw pf w fs' Hargs Hch Hfs)
    as (w' & Hrun & Htr & _).
  eexists _, w'. split; [exact Hrun|].
  rewrite (trace_since_app _ _ _ Htr). unfold bench_events.
  assert (∀ r a k j,
    length (omap ev_sample (flat_map (iteration_events r a kw) (seq j k)))
    = (2 * k)%nat) as Hcount.
  { intros r a k. induction k as [|k IH]; intros j; [done|].
    cbn [seq flat_map]. rewrite omap_app, length_app, IH. cbn. lia. }
  split.
  { rewrite !omap_app, memory_iterations. destruct (truthy pf); cbn;
      by rewrite app_nil_r. }
  split.
  { rewrite !omap_app, !length_app, Hcount. by destruct (truthy pf). }
  pose proof (fold_left_max_ge deltas 0) as [? ?].
  pose proof (fold_left_max_in deltas 0). done.
Qed.

End LoopClaims.

Section FailureProperties.
Context `{FloatI : PyFloat, PstatsI : Pstats, HostI : !Host}.

(** An iteration whose child ends with a non-zero return code. *)
Lemma bench_iteration_fail args kw pf tmp m (w : world) rc effect :
  spawn (w_spawned w) args kw = Exited rc effect →
  rc ≠ 0 →
  ∃ w',
    bench_iteration args kw pf tmp m w
    = (match failure_cleanup pf tmp (effect (w_fs w)) with
       | inr _ => SystemExit rc
       | inl e => Raise e
       end, w')
    ∧ w_fs w' = match failure_cleanup pf tmp (effect (w_fs w)) with
                | inr fs2 => fs2
                | inl _ => effect (w_fs w)
                end
    ∧ w_stderr w' = w_stderr w +:+ failure_message rc
    ∧ w_trace w' = w_trace w ++
        [EvMaxRss true (rss_reading (w_rusage w)); EvSpawn args kw;
         EvStderr (failure_message rc)]
    ∧ loop_frame w w'.
Proof.
  intros Hspawn Hrc.
  unfold bench_iteration, bind. rewrite get_max_rss_run.
  unfold popen_wait. cbn [w_spawned log tick_rusage].
  assert (w_spawned (if resource_available then tick_rusage w else w)
          = w_spawned w) as -> by (by destruct resource_available).
  rewrite Hspawn.
  destruct (decide (rc ≠ 0)) as [_|?]; [|done].
  unfold failure_cleanup, failure_message, print_stderr, act, sys_exit.
  destruct (truthy pf).
  - unfold fs_call.
    destruct resource_available; cbn -[os_unlink String.append pretty];
      destruct (os_unlink tmp (effect (w_fs w))) as [e|fs2];
      eexists; (split; [reflexivity|]);
      cbn -[String.append pretty]; rewrite <-?(assoc_L (++));
      repeat split; done.
  - destruct resource_available; cbn -[String.append pretty];
      eexists; (split; [reflexivity|]);
      cbn -[String.append pretty]; rewrite <-?(assoc_L (++));
      repeat split; done.
Qed.

Lemma bench_loop_prefix (j r : nat) : ∀ args kw pf tmp m (w : world) m1 w1,
  bench_loop j args kw pf tmp m w = (Return m1, w1) →
  bench_loop (j + S r) args kw pf tmp m w
  = bench_loop (S r) args kw pf tmp m1 w1.
Proof.
  induction j as [|j IH]; intros args kw pf tmp m w m1 w1 Hrun.
  - cbn in Hrun. by injection Hrun as -> ->.
  - cbn [Nat.add]. cbn [bench_loop] in Hrun |- *. unfold bind in Hrun |- *.
    destruct (bench_iteration args kw pf tmp m w) as [[m2| |] w2]; [|done..].
    by apply IH.
Qed.

(** After [j] iterations that succeed, child [j] ends with a non-zero
    return code. *)
Lemma bench_process_fail loops args kw pf (w : world) j rc effect fs_j :
  (truthy pf = true → args ≠ []) →
  (j < Z.to_nat loops)%nat →
  children_exit_zero j (w_spawned w) (effective_args pf args) kw →
  profile_steps j (w_spawned w) (effective_args pf args) kw pf
    (effective_temp pf) (w_fs w) = inr fs_j →
  spawn (w_spawned w + j) (effective_args pf args) kw = Exited rc effect →
  rc ≠ 0 →
  ∃ w',
    bench_process loops args kw pf w
    = (match failure_cleanup pf (effective_temp pf) (effect fs_j) with
       | inr _ => SystemExit rc
       | inl e => Raise e
       end, w')
    ∧ w_fs w' = match failure_cleanup pf (effective_temp pf) (effect fs_j) with
                | inr fs2 => fs2
                | inl _ => effect fs_j
                end
    ∧ w_stderr w' = w_stderr w +:+ failure_message rc
    ∧ w_stdout w' = w_stdout w
    ∧ w_metadata w' = w_metadata w
    ∧ w_clock w' = S (w_clock w)
    ∧ omap ev_spawn (trace_since w w')
      = replicate (S j) (effective_args pf args).
Proof.
  intros Hargs Hj Hch Hfs Hsp Hrc.
  assert (∃ r, Z.to_nat loops = (j + S r)%nat) as [r Hr].
  { exists (Z.to_nat loops - S j)%nat. lia. }
  assert (∀ w0 : world,
    w_spawned w0 = w_spawned w → w_fs w0 = w_fs w → w_stderr w0 = w_stderr w →
    ∃ w' tr,
      bench_loop (j + S r) (effective_args pf args) kw pf (effective_temp pf)
        0 w0
      = (match failure_cleanup pf (effective_temp pf) (effect fs_j) with
         | inr _ => SystemExit rc
         | inl e => Raise e
         end, w')
      ∧ w_fs w' = match failure_cleanup pf (effective_temp pf) (effect fs_j)
                  with
                  | inr fs2 => fs2
                  | inl _ => effect fs_j
                  end
      ∧ w_stderr w' = w_stderr w +:+ failure_message rc
      ∧ loop_frame w0 w'
      ∧ w_trace w' = w_trace w0 ++ tr
      ∧ omap ev_spawn tr = replicate (S j) (effective_args pf args))
    as Hloop.
  { intros w0 E1 E2 E3.
    destruct (bench_loop_ok j (effective_args pf args) kw pf
                (effective_temp pf) 0 w0 (w_rusage w0) 0%nat fs_j)
      as (w1 & Hrun & Htr & Hfs1 & Hsp1 & Herr1 & Hfr1).
    { intros _. lia. }
    { by rewrite E1. }
    { by rewrite E1, E2. }
    rewrite (bench_loop_prefix _ _ _ _ _ _ _ _ _ _ Hrun).
    destruct (bench_iteration_fail (effective_args pf args) kw pf
                (effective_temp pf)
                (fold_left Z.max
                   (map (iteration_delta (w_rusage w0)) (seq 0 j)) 0)
                w1 rc effect) as (w' & Hrun' & Hfs' & Herr' & Htr' & Hfr');
      [by rewrite Hsp1, E1|done|].
    exists w'. eexists. cbn [bench_loop]. unfold bind. rewrite Hrun'.
    rewrite Hfs1 in *.
    split; [by destruct (failure_cleanup _ _ _)|].
    split; [by destruct (failure_cleanup _ _ _)|].
    split; [by rewrite Herr', Herr1, E3|].
    split; [by eapply loop_frame_trans|].
    split; [by rewrite Htr', Htr, <-(assoc_L (++))|].
    rewrite omap_app.
    assert (∀ k i, omap ev_spawn (flat_map
      (iteration_events (w_rusage w0) (effective_args pf args) kw) (seq i k))
      = replicate k (effective_args pf args)) as ->.
    { induction k as [|k IH]; intros i; [done|].
      cbn [seq flat_map]. by rewrite omap_app, IH. }
    cbn. by rewrite <-replicate_cons_app. }
  unfold bench_process, bind. unfold perf_counter at 1. rewrite Hr.
  set (w1 := log _ (tick_clock w)).
  unfold effective_args, effective_temp in *.
  destruct (truthy pf) eqn:Hpf.
  - destruct args as [|a0 args]; [by destruct Hargs|].
    cbn [mktemp getitem lookup list_lookup ret].
    set (w2 := log (EvMktemp mktemp_name) w1).
    destruct (Hloop w2) as (w' & tr & Hrun & Hfs' & Herr' & Hfr' & Htr' & Hs');
      [done..|].
    cbn [head default from_option id app] in Hrun. unfold id in Hrun.
    cbn [app]. rewrite Hrun. destruct Hfr' as (Hc & Ha & Hm & Ho).
    exists w'.
    split; [by destruct (failure_cleanup pf mktemp_name (effect fs_j))|].
    split; [done|]. split; [done|]. split; [done|]. split; [done|].
    split; [done|].
    rewrite (trace_since_app w w'
               ([EvClock (clock_reading (w_clock w)); EvMktemp mktemp_name]
                ++ tr)).
    + by rewrite omap_app.
    + rewrite Htr'. subst w2 w1. cbn [w_trace log tick_clock].
      by rewrite <-!(assoc_L (++)).
  - destruct (Hloop w1) as (w' & tr & Hrun & Hfs' & Herr' & Hfr' & Htr' & Hs');
      [done..|].
    cbn [ret]. rewrite Hrun. destruct Hfr' as (Hc & Ha & Hm & Ho).
    exists w'.
    split; [by destruct (failure_cleanup pf EmptyString (effect fs_j))|].
    split; [done|]. split; [done|]. split; [done|]. split; [done|].
    split; [done|].
    rewrite (trace_since_app w w' ([EvClock (clock_reading (w_clock w))]
                                   ++ tr)).
    + by rewrite omap_app.
    + rewrite Htr'. subst w1. cbn [w_trace log tick_clock].
      by rewrite <-!(assoc_L (++)).
Qed.

End FailureProperties.

Section FailureClaims.
Context `{FloatI : PyFloat, PstatsI : Pstats, HostI : !Host}.

(** C9.  When profiling and child [j] is the first to end with a non-zero
    return code [rc], the failure branch unlinks the temporary profile
    without looking: the run ends with [sys.exit(rc)] exactly when that path
    is a regular file at that moment; otherwise the unlink raises and the
    run ends with that exception instead.  The message is on stderr either
    way and nothing is written to stdout. *)
Theorem failure_cleanup_needs_temp_file loops args kw pf (w : world) j rc
    effect fs_j :
  truthy pf = true →
  args ≠ [] →
  (j < Z.to_nat loops)%nat →
  children_exit_zero j (w_spawned w) (effective_args pf args) kw →
  profile_steps j (w_spawned w) (effective_args pf args) kw pf
    mktemp_name (w_fs w) = inr fs_j →
  spawn (w_spawned w + j) (effective_args pf args) kw = Exited rc effect →
  rc ≠ 0 →
  ∃ w',
    bench_process loops args kw pf w
    = (match effect fs_j !! mktemp_name with
       | Some (File _) => SystemExit rc
       | Some Dir => Raise IsADirectoryError
       | None => Raise FileNotFoundError
       end, w')
    ∧ w_fs w' = match effect fs_j !! mktemp_name with
                | Some (File _) => delete mktemp_name (effect fs_j)
                | _ => effect fs_j
                end
    ∧ w_stderr w' = w_stderr w +:+ failure_message rc
    ∧ w_stdout w' = w_stdout w
    ∧ (fst (bench_process loops args kw pf w) = SystemExit rc
       ↔ os_path_isfile mktemp_name (effect fs_j) = true).
Proof.
  intros Hpf Hargs Hj Hch Hfs Hsp Hrc.
  destruct (bench_process_fail loops args kw pf w j rc effect fs_j)
    as (w' & Hrun & Hfs' & Herr & Hout & _); try done.
  { unfold effective_temp. by rewrite Hpf. }
  exists w'. rewrite Hrun. revert Hfs'.
  unfold failure_cleanup, effective_temp, os_unlink, os_path_isfile.
  rewrite Hpf. cbn [fst].
  destruct (effect fs_j !! mktemp_name) as [[c|]|]; intros Hfs';
    repeat split; done.
Qed.

Lemma bench_frame_refl (w : world) : bench_frame w w.
Proof. exists []. by rewrite app_nil_r. Qed.

Lemma bench_frame_trans (w1 w2 w3 : world) :
  bench_frame w1 w2 → bench_frame w2 w3 → bench_frame w1 w3.
Proof.
  intros (t1 & E1 & F1 & ? & ? & ?) (t2 & E2 & F2 & ? & ? & ?).
  exists (t1 ++ t2). rewrite E2, E1, (assoc_L (++)).
  split; [done|]. split; [by apply Forall_app|]. repeat split; congruence.
Qed.

Lemma keeps_frame_ret {A} (a : A) : keeps_frame (ret a).
Proof. intros w. apply bench_frame_refl. Qed.

Lemma keeps_frame_bind {A B} (c : M A) (k : A → M B) :
  keeps_frame c → (∀ a, keeps_frame (k a)) → keeps_frame (bind c k).
Proof.
  intros Hc Hk w. unfold bind. specialize (Hc w).
  destruct (c w) as [[a| |] w1]; [|done..].
  eapply bench_frame_trans; [exact Hc|apply Hk].
Qed.

Lemma keeps_frame_get_max_rss (children : bool) :
  keeps_frame (get_max_rss children).
Proof.
  intros w. unfold get_max_rss, bind, getrusage_maxrss, act, ret.
  destruct resource_available; [destruct platform_darwin|];
    cbn [snd]; (eexists [_]; repeat split; by repeat constructor).
Qed.

Lemma keeps_frame_fs_call f : keeps_frame (fs_call f).
Proof.
  intros w. unfold fs_call. destruct (f (w_fs w)); cbn [snd];
    (exists []; by rewrite app_nil_r).
Qed.

Lemma keeps_frame_iteration args kw pf tmp m :
  keeps_frame (bench_iteration args kw pf tmp m).
Proof.
  unfold bench_iteration.
  apply keeps_frame_bind; [apply keeps_frame_get_max_rss|intros a].
  apply keeps_frame_bind.
  { intros w. unfold popen_wait.
    destruct (spawn _ _ _); cbn [snd];
      (eexists [_]; repeat split; by repeat constructor). }
  intros rc. apply keeps_frame_bind.
  { destruct (decide (rc ≠ 0)); [|apply keeps_frame_ret].
    apply keeps_frame_bind.
    { intros w. eexists [_]. repeat split; by repeat constructor. }
    intros _. apply keeps_frame_bind.
    { destruct (truthy pf);
        [apply keeps_frame_fs_call|apply keeps_frame_ret]. }
    intros _ w. apply bench_frame_refl. }
  intros _. apply keeps_frame_bind; [apply keeps_frame_get_max_rss|intros b].
  apply keeps_frame_bind; [|intros _; apply keeps_frame_ret].
  destruct (truthy pf); [apply keeps_frame_fs_call|apply keeps_frame_ret].
Qed.

Lemma keeps_frame_loop (n : nat) args kw pf tmp m :
  keeps_frame (bench_loop n args kw pf tmp m).
Proof.
  revert m. induction n as [|n IH]; intros m; [apply keeps_frame_ret|].
  cbn [bench_loop].
  apply keeps_frame_bind; [apply keeps_frame_iteration|done].
Qed.

(** However [bench_process] ends, it has only logged loop events and has
    left the metadata, stdout and [sys.argv] as they were. *)
Lemma keeps_frame_bench_process loops args kw pf :
  keeps_frame (bench_process loops args kw pf).
Proof.
  unfold bench_process.
  assert (keeps_frame perf_counter) as Hclock.
  { intros w. eexists [_]. repeat split; by repeat constructor. }
  apply keeps_frame_bind; [done|intros t0].
  apply keeps_frame_bind.
  { destruct (truthy pf); [|apply keeps_frame_ret].
    apply keeps_frame_bind.
    { intros w. eexists [_]. repeat split; by repeat constructor. }
    intros tmp. apply keeps_frame_bind; [|intros ?; apply keeps_frame_ret].
    unfold getitem. destruct (args !! 0%nat); [apply keeps_frame_ret|].
    intros w. apply bench_frame_refl. }
  intros [tmp args']. apply keeps_frame_bind; [apply keeps_frame_loop|].
  intros m. apply keeps_frame_bind; [done|]. intros t1. apply keeps_frame_ret.
Qed.

End FailureClaims.

(** ** The entry point *)

Section MainProperties.
Context `{FloatI : PyFloat, PstatsI : Pstats, HostI : !Host}.

Lemma argv_frame_refl (w : world) : argv_frame w w.
Proof. by destruct w. Qed.

Lemma argv_frame_trans (w1 w2 w3 : world) :
  argv_frame w1 w2 → argv_frame w2 w3 → argv_frame w1 w3.
Proof. unfold argv_frame. intros -> ->. by destruct w1. Qed.

Lemma argv_frame_set (w : world) argv : argv_frame w (set_argv argv w).
Proof. by destruct w. Qed.

Lemma scan_hooks_frame (fuel : nat) : ∀ names (w : world),
  argv_frame w (snd (scan_hooks fuel names w)).
Proof.
  induction fuel as [|fuel IH]; intros names w; cbn [scan_hooks];
    unfold bind, ask; destruct (decide ("--hook" ∈ w_argv w));
    try apply argv_frame_refl.
  unfold getitem.
  destruct (w_argv w !! (index_of "--hook" (w_argv w) + 1)%nat);
    [|apply argv_frame_refl].
  cbn [ret del_argv act]. eapply argv_frame_trans; [|apply IH].
  eapply argv_frame_trans; apply argv_frame_set.
Qed.

Lemma index_of_lookup (x : string) (l : list string) :
  x ∈ l → l !! index_of x l = Some x.
Proof.
  induction l as [|y l IH]; intros Hin; [by apply elem_of_nil in Hin|].
  cbn [index_of]. destruct (decide (y = x)) as [->|Hne]; [done|].
  apply elem_of_cons in Hin as [->|Hin]; [done|]. by apply IH.
Qed.

(** [length sys.argv] rounds are enough for the scan. *)
Lemma scan_hooks_fuel (fuel : nat) : ∀ names (w : world),
  (length (w_argv w) ≤ fuel)%nat →
  fst (scan_hooks fuel names w) ≠ Raise OutOfFuel.
Proof.
  induction fuel as [|fuel IH]; intros names w Hlen; cbn [scan_hooks];
    unfold bind, ask; destruct (decide ("--hook" ∈ w_argv w)) as [Hin|];
    try done.
  - destruct (w_argv w); [by apply elem_of_nil in Hin|cbn in Hlen; lia].
  - unfold getitem.
    destruct (w_argv w !! (index_of "--hook" (w_argv w) + 1)%nat) as [name|]
      eqn:Hname; [|done].
    cbn [ret del_argv act]. apply IH.
    cbn [w_argv set_argv].
    pose proof (index_of_lookup _ _ Hin) as Hidx.
    set (idx := index_of "--hook" (w_argv w)) in *.
    assert (is_Some (w_argv w !! idx)) as H1 by (by rewrite Hidx).
    assert (is_Some (delete idx (w_argv w) !! idx)) as H2.
    { rewrite list_lookup_delete_ge by lia.
      replace (S idx) with (idx + 1)%nat by lia. by rewrite Hname. }
    rewrite !length_delete by done. lia.
Qed.

Lemma take_profile_frame (w : world) : argv_frame w (snd (take_profile w)).
Proof.
  unfold take_profile, bind, ask.
  destruct (decide ("--profile" ∈ w_argv w)); [|apply argv_frame_refl].
  unfold getitem.
  destruct (w_argv w !! (index_of "--profile" (w_argv w) + 1)%nat);
    [|apply argv_frame_refl].
  cbn. eapply argv_frame_trans; apply argv_frame_set.
Qed.

Lemma dict_set_nonempty {V} (k : string) (v : V) (d : dict V) :
  dict_set k v d ≠ [].
Proof. destruct d as [|[k' v'] d]; cbn; [done|]. by case_decide. Qed.

Lemma instantiate_nonempty (names : list string) : ∀ acc hm,
  instantiate_selected_hooks names acc = inr hm →
  names ≠ [] ∨ acc ≠ [] → hm ≠ [].
Proof.
  induction names as [|name names IH]; intros acc hm Hres Hne; cbn in Hres.
  - injection Hres as <-. by destruct Hne.
  - destruct (hook_registry name) as [h|]; [|done].
    eapply IH; [done|]. right. apply dict_set_nonempty.
Qed.

Lemma load_hooks_inv (w : world) hm w' :
  w_metadata w = [] →
  load_hooks w = (Return hm, w') →
  w_trace w' = w_trace w ++ hooks_events hm
  ∧ w_metadata w' = hooks_metadata hm
  ∧ w_stdout w' = w_stdout w.
Proof.
  intros Hmd. unfold load_hooks, bind, ask.
  pose proof (scan_hooks_frame (length (w_argv w)) [] w) as Hfr.
  destruct (scan_hooks (length (w_argv w)) [] w) as [[names| |] w1];
    [|done..].
  cbn [snd] in Hfr. destruct names as [|name names].
  - intros [= <- <-]. rewrite Hfr. cbn. by rewrite app_nil_r.
  - destruct (instantiate_selected_hooks (name :: names) []) as [e|hm']
      eqn:Hinst; [done|].
    intros [= <- <-].
    pose proof (instantiate_nonempty _ _ _ Hinst ltac:(by left)) as Hne.
    rewrite Hfr. cbn. rewrite Hmd.
    destruct hm' as [|[k h] hm']; [done|]. done.
Qed.

(** What [main_setup] has done when it returns: it has written nothing to
    stdout, and it has put the key [hooks] into the fresh metadata when
    hooks were asked for. *)
Lemma main_setup_inv (w : world) cfg w1 :
  main_setup w = (Return cfg, w1) →
  w_trace w1 = w_trace w ++ hooks_events (cfg_hook_managers cfg)
  ∧ w_metadata w1 = hooks_metadata (cfg_hook_managers cfg)
  ∧ w_stdout w1 = w_stdout w
  ∧ cfg_kw cfg = popen_keywords.
Proof.
  unfold main_setup, bind, ask.
  destruct pyperf_in_sys_modules; [done|]. cbn [ret].
  destruct (decide (length (w_argv w) < 3)%nat); [done|]. cbn [ret].
  pose proof (take_profile_frame w) as Hfr.
  destruct (take_profile w) as [[pfn| |] wa]; [|done..].
  cbn [snd] in Hfr. cbn [act].
  destruct (load_hooks (set_metadata [] wa)) as [[hm| |] wc] eqn:Hload;
    [|done..].
  apply load_hooks_inv in Hload as (Htr & Hmd & Hout); [|done].
  unfold getitem, py_int.
  destruct (w_argv wc !! 1%nat) as [s|]; [|done]. cbn [ret].
  destruct (int_of_str s) as [loops|]; [|done].
  intros [= <- <-]. cbn.
  rewrite Htr, Hmd, Hout, Hfr. done.
Qed.

End MainProperties.

Section MainRuns.
Context `{FloatI : PyFloat, PstatsI : Pstats, HostI : !Host}.

Lemma add_trace_log (e : event) (tr : list event) (w : world) :
  add_trace tr (log e w) = add_trace (e :: tr) w.
Proof. unfold add_trace, log. cbn. by rewrite <-(assoc_L (++)). Qed.

Lemma fold_log (f : hook → event) (hooks : list hook) : ∀ w : world,
  fold_left (λ w h, log (f h) w) hooks w = add_trace (map f hooks) w.
Proof.
  induction hooks as [|h hooks IH]; intros w; cbn [fold_left map].
  - unfold add_trace. rewrite app_nil_r. by destruct w.
  - by rewrite IH, add_trace_log.
Qed.

Lemma with_ExitStack_run {A} (hooks : list hook) (body : M A) (w : world) :
  with_ExitStack hooks body w
  = (fst (body (add_trace (map (λ h, EvEnter (hook_name h)) hooks) w)),
     add_trace (map (λ h, EvLeave (hook_name h)) (rev hooks))
       (snd (body (add_trace (map (λ h, EvEnter (hook_name h)) hooks) w)))).
Proof.
  unfold with_ExitStack. rewrite fold_log.
  destruct (body _) as [o w2]. by rewrite fold_log.
Qed.

Lemma teardown_all_run (hooks : list hook) : ∀ w : world,
  teardown_all hooks w
  = (Return tt,
     set_metadata (metadata_after_teardown hooks (w_metadata w))
       (add_trace (map (λ h, EvTeardown (hook_name h)) hooks) w)).
Proof.
  induction hooks as [|h hooks IH]; intros w; cbn [teardown_all].
  - unfold ret, metadata_after_teardown, add_trace, set_metadata. cbn.
    rewrite app_nil_r. by destruct w.
  - unfold bind, act. rewrite IH. f_equal.
    unfold metadata_after_teardown, add_trace, set_metadata, log. cbn.
    by rewrite <-(assoc_L (++)).
Qed.

(** The whole run when the setup returns, every child ends with 0 and no
    merge raises. *)
Lemma main_ok (w : world) cfg w1 fs' :
  main_setup w = (Return cfg, w1) →
  (truthy (cfg_profile_filename cfg) = true → cfg_args cfg ≠ []) →
  children_exit_zero (Z.to_nat (cfg_loops cfg)) (w_spawned w1)
    (effective_args (cfg_profile_filename cfg) (cfg_args cfg)) (cfg_kw cfg) →
  profile_steps (Z.to_nat (cfg_loops cfg)) (w_spawned w1)
    (effective_args (cfg_profile_filename cfg) (cfg_args cfg)) (cfg_kw cfg)
    (cfg_profile_filename cfg) (effective_temp (cfg_profile_filename cfg))
    (w_fs w1) = inr fs' →
  let hooks := dict_values (cfg_hook_managers cfg) in
  let dt := float_sub (clock_reading (S (w_clock w1)))
              (clock_reading (w_clock w1)) in
  let max_rss := fold_left Z.max
                   (map (iteration_delta (w_rusage w1))
                      (seq 0 (Z.to_nat (cfg_loops cfg)))) 0 in
  let md := metadata_after_teardown hooks
              (hooks_metadata (cfg_hook_managers cfg)) in
  ∃ w',
    main w = (Return tt, w')
    ∧ w_trace w' = w_trace w
        ++ hooks_events (cfg_hook_managers cfg)
        ++ map (λ h, EvEnter (hook_name h)) hooks
        ++ bench_events (w_clock w1) (w_rusage w1) (cfg_loops cfg)
             (cfg_args cfg) (cfg_kw cfg) (cfg_profile_filename cfg)
        ++ map (λ h, EvLeave (hook_name h)) (rev hooks)
        ++ map (λ h, EvTeardown (hook_name h)) hooks
        ++ emit_events dt max_rss md
    ∧ w_stdout w' = w_stdout w +:+ emitted dt max_rss md
    ∧ w_metadata w' = md.
Proof.
  intros Hsetup Hargs Hch Hfs hooks dt max_rss md.
  destruct (main_setup_inv w cfg w1 Hsetup) as (Htr1 & Hmd1 & Hout1 & Hkw).
  set (wa := add_trace (map (λ h, EvEnter (hook_name h)) hooks) w1).
  destruct (bench_process_ok (cfg_loops cfg) (cfg_args cfg) (cfg_kw cfg)
              (cfg_profile_filename cfg) wa fs')
    as (w2 & Hrun & Htr2 & Hc2 & Hfs2 & Hsp2 & Hmd2 & Hout2 & Herr2 & Ha2);
    [done..|].
  set (wb := add_trace (map (λ h, EvLeave (hook_name h)) (rev hooks)) w2).
  set (wc := set_metadata (metadata_after_teardown hooks (w_metadata wb))
               (add_trace (map (λ h, EvTeardown (hook_name h)) hooks) wb)).
  destruct (write_data_run dt max_rss (w_metadata wc) wc)
    as (w' & Hwrite & Hout' & Hmd' & _ & Htr').
  exists w'. split.
  { unfold main. unfold bind at 1. rewrite Hsetup.
    unfold bind at 1. rewrite with_ExitStack_run. fold hooks. fold wa.
    rewrite Hrun. cbn [fst snd]. fold wb.
    unfold bind at 1. rewrite teardown_all_run. fold wc.
    unfold bind, ask. exact Hwrite. }
  assert (w_metadata wc = md) as Emd.
  { subst wc wb md. cbn. by rewrite Hmd2, <-Hmd1. }
  rewrite Emd in *.
  split.
  { rewrite Htr'. subst wc wb. cbn [w_trace set_metadata add_trace].
    rewrite Htr2. subst wa. cbn [w_trace add_trace w_clock w_rusage].
    rewrite Htr1. unfold emit_events. by rewrite <-!(assoc_L (++)). }
  split.
  { rewrite Hout'. subst wc wb. cbn. rewrite Hout2. subst wa. cbn.
    by rewrite Hout1. }
  by rewrite Hmd'.
Qed.





End MainRuns.

Section MainClaims.
Context `{FloatI : PyFloat, PstatsI : Pstats, HostI : !Host}.

Lemma omap_bench_events {B} (f : event → option B) (tr : list event) :
  (∀ e, bench_event e → f e = None) → Forall bench_event tr → omap f tr = [].
Proof.
  intros Hf. induction 1 as [|e tr He _ IH]; [done|].
  cbn. by rewrite (Hf e He), IH.
Qed.

Lemma omap_map_none {A B} (g : A → event) (f : event → option B)
    (l : list A) :
  (∀ a, f (g a) = None) → omap f (map g l) = [].
Proof. intros Hf. induction l as [|a l IH]; cbn; [done|by rewrite Hf]. Qed.

Lemma omap_map_some {A B} (g : A → event) (f : event → option B) (h : A → B)
    (l : list A) :
  (∀ a, f (g a) = Some (h a)) → omap f (map g l) = map h l.
Proof.
  intros Hf. induction l as [|a l IH]; cbn; [done|]. by rewrite Hf, IH.
Qed.

Lemma bench_events_are_bench_events c r loops args kw pf :
  Forall bench_event (bench_events c r loops args kw pf).
Proof.
  unfold bench_events. repeat apply Forall_app_2.
  - by repeat constructor.
  - destruct (truthy pf); by repeat constructor.
  - generalize 0%nat. induction (Z.to_nat loops) as [|n IH]; intros j;
      cbn [seq flat_map]; [constructor|].
    apply Forall_app_2; [by repeat constructor|apply IH].
  - by repeat constructor.
Qed.

(** C3, as the code has it.  In the same runs the metadata is written in
    two places only: by [load_hooks] before the loop, which stores the key
    [hooks] when hooks were asked for, and by the teardowns, which run after
    the loop and the deactivations and before the result is written.  The
    loop itself never writes it, however it ends. *)
Theorem metadata_written_by_load_hooks_and_teardown (w : world) cfg w1 fs' :
  main_setup w = (Return cfg, w1) →
  (truthy (cfg_profile_filename cfg) = true → cfg_args cfg ≠ []) →
  children_exit_zero (Z.to_nat (cfg_loops cfg)) (w_spawned w1)
    (effective_args (cfg_profile_filename cfg) (cfg_args cfg)) (cfg_kw cfg) →
  profile_steps (Z.to_nat (cfg_loops cfg)) (w_spawned w1)
    (effective_args (cfg_profile_filename cfg) (cfg_args cfg)) (cfg_kw cfg)
    (cfg_profile_filename cfg) (effective_temp (cfg_profile_filename cfg))
    (w_fs w1) = inr fs' →
  let hm := cfg_hook_managers cfg in
  let names := map hook_name (dict_values hm) in
  ∃ w' dt max_rss loop_events,
    main w = (Return tt, w')
    ∧ trace_since w w'
      = hooks_events hm ++ map EvEnter names ++ loop_events
        ++ map EvLeave (rev names) ++ map EvTeardown names
        ++ emit_events dt max_rss (w_metadata w')
    ∧ Forall bench_event loop_events
    ∧ omap ev_metaset (trace_since w w')
      = match hm with [] => [] | _ => ["hooks"] end
    ∧ w_metadata w1 = hooks_metadata hm
    ∧ w_metadata w'
      = metadata_after_teardown (dict_values hm) (hooks_metadata hm)
    ∧ (∀ w0 : world,
         w_metadata (snd (bench_process (cfg_loops cfg) (cfg_args cfg)
                            (cfg_kw cfg) (cfg_profile_filename cfg) w0))
         = w_metadata w0).
Proof.
  intros Hsetup Hargs Hch Hfs hm names.
  destruct (main_ok w cfg w1 fs' Hsetup Hargs Hch Hfs)
    as (w' & Hrun & Htr & _ & Hmd).
  destruct (main_setup_inv w cfg w1 Hsetup) as (_ & Hmd1 & _).
  apply trace_since_app in Htr.
  set (hooks := dict_values (cfg_hook_managers cfg)) in *.
  assert (map (λ h, EvEnter (hook_name h)) hooks = map EvEnter names) as E1
    by (subst names; by rewrite map_map).
  assert (map (λ h, EvLeave (hook_name h)) (rev hooks)
          = map EvLeave (rev names)) as E2
    by (subst names; by rewrite <-map_rev, map_map).
  assert (map (λ h, EvTeardown (hook_name h)) hooks = map EvTeardown names)
    as E3 by (subst names; by rewrite map_map).
  rewrite E1, E2, E3, <-Hmd in Htr.
  pose proof (bench_events_are_bench_events (w_clock w1) (w_rusage w1)
                (cfg_loops cfg) (cfg_args cfg) (cfg_kw cfg)
                (cfg_profile_filename cfg)) as Hb.
  eexists w', _, _, _.
  split; [exact Hrun|]. split; [exact Htr|]. split; [exact Hb|].
  split.
  { rewrite Htr, !omap_app.
    rewrite (omap_bench_events ev_metaset _ ltac:(by intros []) Hb).
    rewrite (omap_map_none EvEnter ev_metaset),
      (omap_map_none EvLeave ev_metaset),
      (omap_map_none EvTeardown ev_metaset) by done.
    subst hm. unfold hooks_events. by destruct (cfg_hook_managers cfg). }
  split; [done|]. split; [done|].
  intros w0.
  by destruct (keeps_frame_bench_process (cfg_loops cfg) (cfg_args cfg)
                 (cfg_kw cfg) (cfg_profile_filename cfg) w0)
    as (tr & _ & _ & ? & _).
Qed.




End MainClaims.

Section HookClaims.
Context `{FloatI : PyFloat, PstatsI : Pstats, HostI : !Host}.

(** [main] after the setup, by the way the loop ends. *)
Lemma main_cases (w : world) cfg w1 :
  main_setup w = (Return cfg, w1) →
  let hooks := dict_values (cfg_hook_managers cfg) in
  let loop := bench_process (cfg_loops cfg) (cfg_args cfg) (cfg_kw cfg)
                (cfg_profile_filename cfg)
                (add_trace (map (λ h, EvEnter (hook_name h)) hooks) w1) in
  ∃ loop_events,
    Forall bench_event loop_events
    ∧ match fst loop with
      | Return (dt, max_rss) =>
          ∃ w' md,
            main w = (Return tt, w')
            ∧ w_trace w' = w_trace w
                ++ hooks_events (cfg_hook_managers cfg)
                ++ map (λ h, EvEnter (hook_name h)) hooks
                ++ loop_events
                ++ map (λ h, EvLeave (hook_name h)) (rev hooks)
                ++ map (λ h, EvTeardown (hook_name h)) hooks
                ++ emit_events dt max_rss md
      | SystemExit code =>
          ∃ w',
            main w = (SystemExit code, w')
            ∧ w_trace w' = w_trace w
                ++ hooks_events (cfg_hook_managers cfg)
                ++ map (λ h, EvEnter (hook_name h)) hooks
                ++ loop_events
                ++ map (λ h, EvLeave (hook_name h)) (rev hooks)
      | Raise e =>
          ∃ w',
            main w = (Raise e, w')
            ∧ w_trace w' = w_trace w
                ++ hooks_events (cfg_hook_managers cfg)
                ++ map (λ h, EvEnter (hook_name h)) hooks
                ++ loop_events
                ++ map (λ h, EvLeave (hook_name h)) (rev hooks)
      end.
Proof.
  intros Hsetup hooks loop.
  destruct (main_setup_inv w cfg w1 Hsetup) as (Htr1 & _).
  pose proof (keeps_frame_bench_process (cfg_loops cfg) (cfg_args cfg)
                (cfg_kw cfg) (cfg_profile_filename cfg)
                (add_trace (map (λ h, EvEnter (hook_name h)) hooks) w1))
    as (tr & Htr2 & Hb & _).
  fold loop in Htr2. exists tr. split; [done|].
  cbn [w_trace add_trace] in Htr2.
  assert (∀ o w2, loop = (o, w2) →
    main w = bind (λ w0, (o, add_trace (map (λ h, EvLeave (hook_name h))
                                          (rev hooks)) w2))
               (λ x, let '(dt, max_rss) := x in
                     bind (teardown_all hooks)
                       (λ _, bind (ask w_metadata)
                               (λ md, write_data dt max_rss md))) w1)
    as Hmain.
  { intros o w2 Hloop. unfold main. unfold bind at 1. rewrite Hsetup.
    unfold bind at 1 5. rewrite with_ExitStack_run. fold hooks. fold loop.
    by rewrite Hloop. }
  destruct loop as [[[dt m]| |] w2] eqn:Hloop; cbn [fst snd] in *;
    rewrite (Hmain _ _ eq_refl); clear Hmain.
  - unfold bind at 1. unfold bind at 1. rewrite teardown_all_run.
    unfold bind, ask.
    set (wc := set_metadata _ _).
    destruct (write_data_run dt m (w_metadata wc) wc)
      as (wd & Hwrite & _ & _ & _ & Htr').
    exists wd, (w_metadata wc). split; [done|].
    rewrite Htr'. subst wc. cbn [w_trace set_metadata add_trace].
    rewrite Htr2, Htr1. unfold emit_events. by rewrite <-!(assoc_L (++)).
  - eexists. split; [reflexivity|]. cbn [w_trace add_trace].
    rewrite Htr2, Htr1. by rewrite <-!(assoc_L (++)).
  - eexists. split; [reflexivity|]. cbn [w_trace add_trace].
    rewrite Htr2, Htr1. by rewrite <-!(assoc_L (++)).
Qed.

(** C2, as the code has it.  Once the setup has returned, the hooks are
    entered in the order of the mapping and left in reverse order however
    the loop ends.  When the loop returns, every hook is then torn down,
    exactly once, in the order the hooks were entered.  When the loop ends
    with [sys.exit] (a child ended with a non-zero return code) or with an
    exception, [main] ends the same way and no hook is torn down. *)
Theorem teardown_once_after_deactivation (w : world) cfg w1 :
  main_setup w = (Return cfg, w1) →
  let names := map hook_name (dict_values (cfg_hook_managers cfg)) in
  let loop := bench_process (cfg_loops cfg) (cfg_args cfg) (cfg_kw cfg)
                (cfg_profile_filename cfg)
                (add_trace (map EvEnter names) w1) in
  ∃ before after,
    trace_since w (snd (main w)) = before ++ map EvLeave (rev names) ++ after
    ∧ omap ev_enter before = names
    ∧ omap ev_leave before = []
    ∧ omap ev_teardown before = []
    ∧ match fst loop with
      | Return _ =>
          fst (main w) = Return tt
          ∧ ∃ emit, after = map EvTeardown names ++ emit
                    ∧ omap ev_enter emit = []
                    ∧ omap ev_leave emit = []
                    ∧ omap ev_teardown emit = []
      | SystemExit code => fst (main w) = SystemExit code ∧ after = []
      | Raise e => fst (main w) = Raise e ∧ after = []
      end.
Proof.
  intros Hsetup names loop.
  set (hooks := dict_values (cfg_hook_managers cfg)) in *.
  assert (map (λ h, EvEnter (hook_name h)) hooks = map EvEnter names) as E1
    by (subst names; by rewrite map_map).
  assert (map (λ h, EvLeave (hook_name h)) (rev hooks)
          = map EvLeave (rev names)) as E2
    by (subst names; by rewrite <-map_rev, map_map).
  assert (map (λ h, EvTeardown (hook_name h)) hooks = map EvTeardown names)
    as E3 by (subst names; by rewrite map_map).
  destruct (main_cases w cfg w1 Hsetup) as (tr & Hb & Hcases).
  fold hooks in Hcases. rewrite E1, E2, E3 in Hcases. fold loop in Hcases.
  exists (hooks_events (cfg_hook_managers cfg) ++ map EvEnter names ++ tr).
  assert (∀ {B} (f : event → option B),
    (∀ key, f (EvMetaSet key) = None) →
    omap f (hooks_events (cfg_hook_managers cfg)) = []) as Hh.
  { intros B f Hf. unfold hooks_events.
    destruct (cfg_hook_managers cfg); cbn; [done|by rewrite Hf]. }
  assert (omap ev_enter (hooks_events (cfg_hook_managers cfg)
                         ++ map EvEnter names ++ tr) = names
          ∧ omap ev_leave (hooks_events (cfg_hook_managers cfg)
                           ++ map EvEnter names ++ tr) = []
          ∧ omap ev_teardown (hooks_events (cfg_hook_managers cfg)
                              ++ map EvEnter names ++ tr) = [])
    as (Hen & Hlv & Htd).
  { rewrite !omap_app.
    rewrite (omap_bench_events ev_enter _ ltac:(by intros []) Hb).
    rewrite (omap_bench_events ev_leave _ ltac:(by intros []) Hb).
    rewrite (omap_bench_events ev_teardown _ ltac:(by intros []) Hb).
    rewrite !Hh by done.
    rewrite (omap_map_none EvEnter ev_leave),
      (omap_map_none EvEnter ev_teardown) by done.
    rewrite (omap_map_some EvEnter ev_enter id) by done.
    by rewrite map_id, app_nil_r. }
  destruct (fst loop) as [[dt m]|code|e].
  - destruct Hcases as (w' & md & Hrun & Htr).
    exists (map EvTeardown names ++ emit_events dt m md).
    rewrite Hrun. cbn [fst snd].
    split; [by rewrite (trace_since_app _ _ _ Htr), <-!(assoc_L (++))|].
    repeat split; eauto.
  - destruct Hcases as (w' & Hrun & Htr). exists [].
    rewrite Hrun. cbn [fst snd].
    split; [by rewrite (trace_since_app _ _ _ Htr), app_nil_r,
                 <-!(assoc_L (++))|].
    repeat split; eauto.
  - destruct Hcases as (w' & Hrun & Htr). exists [].
    rewrite Hrun. cbn [fst snd].
    split; [by rewrite (trace_since_app _ _ _ Htr), app_nil_r,
                 <-!(assoc_L (++))|].
    repeat split; eauto.
Qed.

End HookClaims.

(** * Concrete hosts and runs *)

Module Demo.

(** Floats that hold whole numbers, printed as Python prints them. *)
Lemma whole_repr_one_line (z : Z) : has_newline (pretty z +:+ ".0") = false.
Proof. by rewrite has_newline_app, pretty_Z_one_line. Qed.

#[local] Instance whole_float : PyFloat :=
  {| float := Z; float_sub := Z.sub;
     float_repr := λ z, pretty z +:+ ".0";
     float_repr_one_line := whole_repr_one_line |}.

(** Statistics as call counts per function; a file holds a dump of them or
    something else. *)
#[local] Instance count_stats : Pstats :=
  {| content := option (gmap string Z);
     stats := gmap string Z;
     stats_load := λ c, c;
     stats_add := union_with (λ a b, Some (a + b));
     stats_dump := Some |}.

(** [int()] on an optional minus sign and decimal digits. *)
Fixpoint digits_value (s : string) (acc : Z) : option Z :=
  match s with
  | EmptyString => Some acc
  | String c s' =>
      let d := Z.of_N (N_of_ascii c) - 48 in
      if decide (0 ≤ d ≤ 9) then digits_value s' (10 * acc + d) else None
  end.

Definition decimal_int (s : string) : option Z :=
  match s with
  | EmptyString => None
  | String "-" (String c s') => Z.opp <$> digits_value (String c s') 0
  | _ => digits_value s 0
  end.

(** A hook that records that its teardown ran. *)
Definition recorder : hook :=
  {| hook_name := "recorder";
     hook_teardown := dict_set "recorder_ran" (JBool true) |}.

Definition host (resource : bool) (rss : nat → Z)
    (children : nat → child_outcome) : Host :=
  {| resource_available := resource;
     platform_darwin := false;
     clock_reading := λ k, 100 * Z.of_nat k;
     ru_maxrss := λ _ k, rss k;
     spawn := λ k _ _, children k;
     mktemp_name := "/tmp/tmpk3x9";
     pyperf_in_sys_modules := false;
     subprocess_has_DEVNULL := true;
     int_of_str := decimal_int;
     executable_basename := "python3";
     script_file := "_process_time.py";
     hook_registry := λ name,
       if decide (name = "recorder") then Some recorder else None |}.

Definition start (argv : list string) (fs : filesystem) : world :=
  {| w_clock := 0; w_rusage := 0; w_spawned := 0; w_fs := fs;
     w_argv := argv; w_metadata := []; w_stdout := EmptyString;
     w_stderr := EmptyString; w_trace := [] |}.

(** A child that ends with 0 and touches nothing; one that ends with [rc];
    one that leaves a profile with five calls of [f] at the temporary
    path. *)
Definition quiet : child_outcome := Exited 0 id.
Definition failing (rc : Z) : child_outcome := Exited rc id.
Definition profiled : child_outcome :=
  Exited 0 (λ fs, <["/tmp/tmpk3x9" := File (Some {["f" := 5]})]> fs).




(** One hook; the second of five children ends with 3. *)
Definition second_fails_host : Host :=
  host true (λ k, 5000 + Z.of_nat k)
    (λ k, if decide (k = 1%nat) then failing 3 else quiet).

Definition hooked_argv (loops : string) : list string :=
  ["_process_time.py"; loops; "/bin/cmd"; "--hook"; "recorder"].

Definition second_fails_run : outcome unit * world :=
  main (HostI := second_fails_host) (start (hooked_argv "5") ∅).

(** Against C2 as worded: the run ends with [sys.exit(3)]; the hook was
    entered and left, and never torn down. *)
Lemma no_teardown_when_a_child_fails :
  fst second_fails_run = SystemExit 3
  ∧ omap ev_spawn (w_trace (snd second_fails_run))
    = [["/bin/cmd"]; ["/bin/cmd"]]
  ∧ omap ev_enter (w_trace (snd second_fails_run)) = ["recorder"]
  ∧ omap ev_leave (w_trace (snd second_fails_run)) = ["recorder"]
  ∧ omap ev_teardown (w_trace (snd second_fails_run)) = []
  ∧ w_metadata (snd second_fails_run) = [("hooks", JStr "recorder")]
  ∧ w_stdout (snd second_fails_run) = EmptyString.
Proof. vm_compute. done. Qed.

(** One hook; every child ends with 0. *)
Definition growing_host : Host :=
  host true (λ k, 5000 + 10 * Z.of_nat k) (λ _, quiet).

Definition hooked_run : outcome unit * world :=
  main (HostI := growing_host) (start (hooked_argv "1") ∅).

Definition plain_kw : popen_kw :=
  {| kw_stdin := DEVNULL; kw_stdout := DEVNULL; kw_stderr := STDOUT |}.

(** Against C3 as worded: the key [hooks] is in the metadata before the
    hooks are entered and the clock is first read. *)
Lemma load_hooks_writes_metadata_before_the_loop :
  w_metadata (snd (main_setup (HostI := growing_host)
                     (start (hooked_argv "1") ∅)))
  = [("hooks", JStr "recorder")]
  ∧ fst hooked_run = Return tt
  ∧ take 4 (w_trace (snd hooked_run))
    = [EvMetaSet "hooks"; EvEnter "recorder"; EvClock 0;
       EvMaxRss true 5120000]
  ∧ omap ev_metaset (w_trace (snd hooked_run)) = ["hooks"]
  ∧ split_lines (w_stdout (snd hooked_run))
    = ["100.0"; "10240";
       json_dumps (JObj [("hooks", JStr "recorder");
                         ("recorder_ran", JBool true)])].
Proof. vm_compute. done. Qed.

(** Profiling is asked for and the child ends with 2 before cProfile has
    written the temporary profile. *)
Definition no_profile_host : Host := host true (λ _, 5000) (λ _, failing 2).

Definition profile_argv (loops : string) : list string :=
  ["_process_time.py"; loops; "python3"; "--bogus"; "--profile"; "out.prof"].

Definition failed_profile_run : outcome unit * world :=
  main (HostI := no_profile_host) (start (profile_argv "1") ∅).

(** C5 at this input: the clean-up raises, so the run ends with an uncaught
    FileNotFoundError in place of [sys.exit(2)]. *)
Lemma failed_cleanup_masks_exit_status :
  fst failed_profile_run = Raise FileNotFoundError
  ∧ omap ev_spawn (w_trace (snd failed_profile_run))
    = [["python3"; "-m"; "cProfile"; "-o"; "/tmp/tmpk3x9"; "--bogus"]]
  ∧ split_lines (w_stderr (snd failed_profile_run))
    = ["Command failed with exit code 2"]
  ∧ w_stdout (snd failed_profile_run) = EmptyString.
Proof. vm_compute. done. Qed.

(** Profiling with children that leave their profile. *)
Definition profiling_host : Host :=
  host true (λ k, 5000 + 10 * Z.of_nat k) (λ _, profiled).

Definition profiled_run : outcome (Z * Z) * world :=
  bench_process (HostI := profiling_host) 1 ["python3"; "bench.py"] plain_kw
    (Some "out.prof") (start [] ∅).

(** Against C6 as worded: the first clock reading comes before the
    temporary name is made. *)
Lemma clock_is_read_before_the_rewrite :
  fst profiled_run = Return (100, 10240)
  ∧ omap ev_timeline (w_trace (snd profiled_run))
    = [Clock; Mktemp; Spawn; Clock]
  ∧ take 2 (w_trace (snd profiled_run))
    = [EvClock 0; EvMktemp "/tmp/tmpk3x9"].
Proof. vm_compute. done. Qed.

(** Profiling with children that end with 0 without leaving a profile. *)
Definition silent_host : Host :=
  host true (λ k, 5000 + 10 * Z.of_nat k) (λ _, quiet).

Definition unmerged_run : outcome (Z * Z) * world :=
  bench_process (HostI := silent_host) 2 ["/bin/true"] plain_kw
    (Some "out.prof") (start [] ∅).

(** Against C8 as worded: both children would end with 0, but the first
    merge raises: one pair of samples, one spawn, no result. *)
Lemma merge_error_ends_the_loop_early :
  returncode_of (spawn (Host := silent_host) 0
                   ["/bin/true"; "-m"; "cProfile"; "-o"; "/tmp/tmpk3x9"]
                   plain_kw) = Some 0
  ∧ returncode_of (spawn (Host := silent_host) 1
                     ["/bin/true"; "-m"; "cProfile"; "-o"; "/tmp/tmpk3x9"]
                     plain_kw) = Some 0
  ∧ fst unmerged_run = Raise FileNotFoundError
  ∧ omap ev_sample (w_trace (snd unmerged_run)) = [5120000; 5130240]
  ∧ length (omap ev_spawn (w_trace (snd unmerged_run))) = 1%nat.
Proof. vm_compute. done. Qed.

(** ** The theorems at these runs *)


Lemma teardown_of_hooked_runs :
  (∃ before emit,
     trace_since (start (hooked_argv "2") ∅)
       (snd (main (HostI := growing_host) (start (hooked_argv "2") ∅)))
     = before ++ [EvLeave "recorder"] ++ [EvTeardown "recorder"] ++ emit
     ∧ omap ev_teardown before = []
     ∧ omap ev_teardown emit = []
     ∧ fst (main (HostI := growing_host) (start (hooked_argv "2") ∅))
       = Return tt)
  ∧ (∃ before,
       trace_since (start (hooked_argv "5") ∅) (snd second_fails_run)
       = before ++ [EvLeave "recorder"] ++ []
       ∧ omap ev_teardown before = []
       ∧ fst second_fails_run = SystemExit 3).
Proof.
  split.
  - edestruct (teardown_once_after_deactivation (HostI := growing_host)
                 (start (hooked_argv "2") ∅))
      as (before & after & Htr & _ & _ & Htd & Hcase).
    { reflexivity. }
    vm_compute in Hcase. destruct Hcase as (Hrun & emit & -> & _ & _ & Hem).
    exists before, emit. split; [exact Htr|]. split; [exact Htd|].
    split; [exact Hem|exact Hrun].
  - edestruct (teardown_once_after_deactivation (HostI := second_fails_host)
                 (start (hooked_argv "5") ∅))
      as (before & after & Htr & _ & _ & Htd & Hcase).
    { reflexivity. }
    vm_compute in Hcase. destruct Hcase as (Hrun & ->).
    exists before. split; [exact Htr|]. split; [exact Htd|exact Hrun].
Defined.

Lemma metadata_of_hooked_run :
  ∃ w', main (HostI := growing_host) (start (hooked_argv "2") ∅)
        = (Return tt, w')
        ∧ omap ev_metaset (trace_since (start (hooked_argv "2") ∅) w')
          = ["hooks"]
        ∧ w_metadata w' = [("hooks", JStr "recorder");
                           ("recorder_ran", JBool true)].
Proof.
  edestruct (metadata_written_by_load_hooks_and_teardown
               (HostI := growing_host) (start (hooked_argv "2") ∅))
    as (w' & dt & m & tr & Hrun & _ & _ & Hset & _ & Hmd & _).
  - reflexivity.
  - intros _. discriminate.
  - intros i _. reflexivity.
  - reflexivity.
  - exists w'. split; [exact Hrun|]. split; [exact Hset|exact Hmd].
Defined.




Lemma clock_of_profiled_loop :
  ∃ max_rss w',
    bench_process (HostI := profiling_host) 2 ["python3"; "bench.py"]
      plain_kw (Some "out.prof") (start [] ∅)
    = (Return (100, max_rss), w')
    ∧ omap ev_timeline (trace_since (start [] ∅) w')
      = [Clock; Mktemp; Spawn; Spawn; Clock].
Proof.
  edestruct (bench_process_clock (HostI := profiling_host) 2
               ["python3"; "bench.py"] plain_kw (Some "out.prof")
               (start [] ∅))
    as (m & w' & Hrun & _ & _ & Htl).
  - intros _. discriminate.
  - intros i _. reflexivity.
  - reflexivity.
  - exists m, w'. split; [exact Hrun|exact Htl].
Defined.

Lemma memory_of_three_iterations :
  ∃ dt w',
    bench_process (HostI := growing_host) 3 ["/bin/true"] plain_kw None
      (start [] ∅)
    = (Return (dt, 10240), w')
    ∧ length (omap ev_sample (trace_since (start [] ∅) w')) = 6%nat.
Proof.
  edestruct (bench_process_memory (HostI := growing_host) 3 ["/bin/true"]
               plain_kw None (start [] ∅))
    as (dt & w' & Hrun & _ & Hcount & _).
  - intros H. discriminate H.
  - intros i _. reflexivity.
  - reflexivity.
  - exists dt, w'. split; [exact Hrun|exact Hcount].
Defined.

Lemma cleanup_without_temp_file :
  ∃ w',
    bench_process (HostI := no_profile_host) 1 ["python3"; "--bogus"]
      plain_kw (Some "out.prof") (start [] ∅)
    = (Raise FileNotFoundError, w')
    ∧ w_stdout w' = EmptyString.
Proof.
  edestruct (failure_cleanup_needs_temp_file (HostI := no_profile_host) 1
               ["python3"; "--bogus"] plain_kw (Some "out.prof")
               (start [] ∅) 0%nat 2 id ∅)
    as (w' & Hrun & _ & _ & Hout & _).
  - reflexivity.
  - discriminate.
  - vm_compute. lia.
  - intros i Hi. lia.
  - reflexivity.
  - reflexivity.
  - lia.
  - exists w'. split; [exact Hrun|exact Hout].
Defined.

End Demo.
